(** * Latency-Arbitrage-Simulator: the scaffolding scripts

    A shallow embedding of [setup.py] and [download_glad.py].  Both are
    straight-line Python scripts whose only effects are on the file system,
    the working directory and the standard output, so they are embedded as
    computations in a state-and-exception monad over a finite map from paths
    to file-system nodes.  The constants of the scripts (the exchange catalog,
    the file templates, the editor settings) are transcribed as data. *)

From Stdlib Require Import PrimFloat.
From stdpp Require Import gmap strings list fin_maps.

(** ** Python values *)

(** The double quote, for the string constants that contain one. *)
Definition dq : string := String (Ascii.ascii_of_nat 34) EmptyString.

Local Set Warnings "-register-all".

(** The values [json.dump] is given: strings, floats, dicts (in insertion
    order, which is the order [json.dump] writes them in) and lists.  A Python
    [float] is an IEEE 754 binary64 number, as Rocq's primitive floats are. *)
Inductive json :=
| JString (s : string)
| JFloat (x : float)
| JDict (items : list (string * json))
| JList (elems : list json).

(** [d[key]] for a dict [d]; [None] stands for the [KeyError] (and for a
    value that is no dict). *)
Fixpoint assoc (key : string) (items : list (string * json)) : option json :=
  match items with
  | [] => None
  | (k, v) :: rest => if String.eqb k key then Some v else assoc key rest
  end.

Definition dict_get (key : string) (d : json) : option json :=
  match d with
  | JDict items => assoc key items
  | _ => None
  end.

(** [list(d.keys())]. *)
Definition dict_keys (d : json) : list string :=
  match d with
  | JDict items => items.*1
  | _ => []
  end.

(** ** Paths *)

(** A [pathlib] path with an anchor: the anchor (drive and root), then the
    names below it.  [p / name] is pathlib's division.  On Windows, which the
    scripts are written for, pathlib reads ["D:/Projects/Latency-Arb-Simulator"]
    as the anchor [D:\] followed by two names; such a path is absolute, so
    [os.chdir] does not change what it denotes. *)
Inductive Path :=
| Anchor (drive : string)
| Div (parent : Path) (name : string).

Declare Scope path_scope.
Delimit Scope path_scope with path.
Bind Scope path_scope with Path.
Notation "p / name" := (Div p name) : path_scope.

Global Instance Path_eq_dec : EqDecision Path.
Proof. solve_decision. Defined.

(** [path.parts] and back; a path is one key of the file-system map. *)
Fixpoint Path_parts (p : Path) : list string :=
  match p with
  | Anchor drive => [drive]
  | Div parent name => Path_parts parent ++ [name]
  end.

Definition Path_of_parts (parts : list string) : option Path :=
  match parts with
  | [] => None
  | drive :: names => Some (foldl Div (Anchor drive) names)
  end.

(** [path.parent]; the parent of an anchor is the anchor itself. *)
Definition Path_parent (p : Path) : Path :=
  match p with
  | Anchor _ => p
  | Div parent _ => parent
  end.

(** [str(path)] on Windows. *)
Fixpoint Path_str (p : Path) : string :=
  match p with
  | Anchor drive => drive
  | Div (Anchor drive) name => drive +:+ name
  | Div parent name => Path_str parent +:+ "\" +:+ name
  end.

Global Instance Path_countable : Countable Path.
Proof.
  refine (inj_countable Path_parts Path_of_parts _).
  assert (H : ∀ q, ∃ d ns, Path_parts q = d :: ns ∧ foldl Div (Anchor d) ns = q).
  { induction q as [d | q IH n].
    - by exists d, [].
    - destruct IH as (d & ns & Hq & Hf). exists d, (ns ++ [n]).
      simpl. rewrite Hq. split; [done |]. by rewrite foldl_app, Hf. }
  intros p. destruct (H p) as (d & ns & -> & Hf). simpl. by rewrite Hf.
Defined.

(** ** The file system and the interpreter state *)

(** What a written file holds: the text given to [f.write], or what
    [json.dump(obj, f, indent=n)] wrote.  The characters [json.dump] produces
    are not modelled; the file records the dumped object and the indent. *)
Inductive Content :=
| Text (text : string)
| JsonDump (obj : json) (indent : nat).

Inductive Node :=
| Dir
| File (content : Content).

(** The state a script runs in: the file system, the working directory of
    the process, the lines printed so far (one entry per [print] call) and
    the URLs requested over the network so far. *)
Record State := mkState {
  fs : gmap Path Node;
  cwd : Path;
  stdout : list string;
  requests : list string
}.

Definition with_fs (m : gmap Path Node) (s : State) : State :=
  {| fs := m; cwd := cwd s; stdout := stdout s; requests := requests s |}.
Definition with_cwd (p : Path) (s : State) : State :=
  {| fs := fs s; cwd := p; stdout := stdout s; requests := requests s |}.
Definition with_stdout (out : list string) (s : State) : State :=
  {| fs := fs s; cwd := cwd s; stdout := out; requests := requests s |}.
Definition with_requests (reqs : list string) (s : State) : State :=
  {| fs := fs s; cwd := cwd s; stdout := stdout s; requests := reqs |}.

(** A file system is well formed when everything in it, the drives apart,
    lies in a directory. *)
Definition wf_fs (m : gmap Path Node) : Prop :=
  ∀ (p : Path) (name : string),
    is_Some (m !! (p / name)%path) → m !! p = Some Dir.

(** The [OSError] subclasses the calls of the scripts can raise. *)
Inductive OSError :=
| FileNotFoundError
| FileExistsError
| NotADirectoryError
| PermissionError.

(** A call returns a value or raises; either way it leaves a state behind:
    what a script did before an exception stays done. *)
Inductive Outcome (A : Type) :=
| Returned (a : A)
| Raised (e : OSError).
Arguments Returned {A} a.
Arguments Raised {A} e.

Definition Py (A : Type) : Type := State → Outcome A * State.

Definition ret {A} (a : A) : Py A := λ s, (Returned a, s).

Definition raise {A} (e : OSError) : Py A := λ s, (Raised e, s).

Definition bind {A B} (m : Py A) (k : A → Py B) : Py B := λ s,
  match m s with
  | (Returned a, s') => k a s'
  | (Raised e, s') => (Raised e, s')
  end.

(** [try: m  except OSError as e: handler(e)]. *)
Definition try_except {A} (m : Py A) (handler : OSError → Py A) : Py A := λ s,
  match m s with
  | (Returned a, s') => (Returned a, s')
  | (Raised e, s') => handler e s'
  end.

(** Sequencing is written with stdpp's monad notations: [m ;; k] and
    [x ← m; k]. *)
Global Instance Py_ret : MRet Py := @ret.
Global Instance Py_bind : MBind Py := λ A B k m, bind m k.

(** [for x in xs: body(x)]. *)
Fixpoint for_each {A} (xs : list A) (body : A → Py unit) : Py unit :=
  match xs with
  | [] => ret tt
  | x :: rest => body x ;; for_each rest body
  end.

(** ** The library calls the scripts make *)

(** [print(line)]. *)
Definition print (line : string) : Py unit := λ s,
  (Returned tt, with_stdout (stdout s ++ [line]) s).

(** [os.mkdir(path)]: the path must be free and its parent a directory.
    Windows reports a parent that is missing or a regular file as a path
    that is not found. *)
Definition os_mkdir (path : Path) : Py unit := λ s,
  match fs s !! path with
  | Some _ => (Raised FileExistsError, s)
  | None =>
      match path with
      | Anchor _ => (Raised FileNotFoundError, s)
      | Div parent _ =>
          match fs s !! parent with
          | Some Dir => (Returned tt, with_fs (<[path := Dir]> (fs s)) s)
          | _ => (Raised FileNotFoundError, s)
          end
      end
  end.

(** [path.is_dir()]. *)
Definition Path_is_dir (path : Path) : Py bool := λ s,
  (Returned match fs s !! path with Some Dir => true | _ => false end, s).

(** [Path.mkdir(parents=False, exist_ok=exist_ok)]: pathlib tries [os.mkdir];
    a [FileNotFoundError] is raised again, and any other [OSError] is raised
    again unless [exist_ok] is set and the path is a directory. *)
Definition mkdir_here (self : Path) (exist_ok : bool) : Py unit :=
  try_except (os_mkdir self) (λ e,
    match e with
    | FileNotFoundError => raise e
    | _ =>
        is_dir ← Path_is_dir self;
        if negb exist_ok || negb is_dir then raise e else ret tt
    end).

(** [Path.mkdir(parents, exist_ok)]:
<<
    try:
        os.mkdir(self, mode)
    except FileNotFoundError:
        if not parents or self.parent == self:
            raise
        self.parent.mkdir(parents=True, exist_ok=True)
        self.mkdir(mode, parents=False, exist_ok=exist_ok)
    except OSError:
        if not exist_ok or not self.is_dir():
            raise
>>
    The second call of the [FileNotFoundError] branch has [parents=False], so
    it is [mkdir_here]; the recursion is on the parent alone. *)
Fixpoint Path_mkdir (self : Path) (parents exist_ok : bool) : Py unit :=
  try_except (os_mkdir self) (λ e,
    match e with
    | FileNotFoundError =>
        match self with
        | Anchor _ => raise e
        | Div parent _ =>
            if negb parents then raise e
            else Path_mkdir parent true true ;; mkdir_here self exist_ok
        end
    | _ =>
        is_dir ← Path_is_dir self;
        if negb exist_ok || negb is_dir then raise e else ret tt
    end).

(** [os.chdir(path)]. *)
Definition os_chdir (path : Path) : Py unit := λ s,
  match fs s !! path with
  | Some Dir => (Returned tt, with_cwd path s)
  | Some (File _) => (Raised NotADirectoryError, s)
  | None => (Raised FileNotFoundError, s)
  end.

(** [with open(path, "w") as f: ...] where the body writes [content] and
    nothing else: the file is created or truncated, then holds [content].
    Opening a directory for writing is refused, and so is a path whose
    parent is no directory. *)
Definition open_w (path : Path) (content : Content) : Py unit := λ s,
  match fs s !! path with
  | Some Dir => (Raised PermissionError, s)
  | _ =>
      match path with
      | Anchor _ => (Raised PermissionError, s)
      | Div parent _ =>
          match fs s !! parent with
          | Some Dir => (Returned tt, with_fs (<[path := File content]> (fs s)) s)
          | _ => (Raised FileNotFoundError, s)
          end
      end
  end.

(** [urllib.request.urlopen(url)], the call of the modules the scripts import
    that reaches the network.  What the network answers is not modelled; the
    request is recorded. *)
Definition urlopen (url : string) : Py unit := λ s,
  (Returned tt, with_requests (requests s ++ [url]) s).

(** ** setup.py *)

Module setup.

(** [Path("D:/Projects/Latency-Arb-Simulator")]. *)
Definition PROJECT_ROOT : Path :=
  Anchor "D:\" / "Projects" / "Latency-Arb-Simulator".

Definition DIRECTORIES : list string :=
  ["src"; "include"; "data"; "shaders"; "build"; "docs"; "tests"].

(** The decimal literals below denote the nearest binary64 number, as they do
    in Python. *)
#[local] Set Warnings "-inexact-float".

Definition EXCHANGE_DATA : json :=
  JDict [("exchanges", JList [
    JDict [("id", JString "NYSE"); ("name", JString "New York Stock Exchange"); ("lat", JFloat 40.7069); ("lon", JFloat (-74.0113)); ("city", JString "New York"); ("type", JString "equity")];
    JDict [("id", JString "NASDAQ"); ("name", JString "NASDAQ"); ("lat", JFloat 40.7489); ("lon", JFloat (-73.9680)); ("city", JString "New York"); ("type", JString "equity")];
    JDict [("id", JString "CME"); ("name", JString "Chicago Mercantile Exchange"); ("lat", JFloat 41.8781); ("lon", JFloat (-87.6298)); ("city", JString "Chicago"); ("type", JString "derivatives")];
    JDict [("id", JString "LSE"); ("name", JString "London Stock Exchange"); ("lat", JFloat 51.5149); ("lon", JFloat (-0.0909)); ("city", JString "London"); ("type", JString "equity")];
    JDict [("id", JString "JPX"); ("name", JString "Japan Exchange Group"); ("lat", JFloat 35.6762); ("lon", JFloat 139.6503); ("city", JString "Tokyo"); ("type", JString "equity")];
    JDict [("id", JString "SSE"); ("name", JString "Shanghai Stock Exchange"); ("lat", JFloat 31.2304); ("lon", JFloat 121.4737); ("city", JString "Shanghai"); ("type", JString "equity")];
    JDict [("id", JString "HKEX"); ("name", JString "Hong Kong Stock Exchange"); ("lat", JFloat 22.3193); ("lon", JFloat 114.1694); ("city", JString "Hong Kong"); ("type", JString "equity")];
    JDict [("id", JString "EUREX"); ("name", JString "Eurex"); ("lat", JFloat 50.1109); ("lon", JFloat 8.6821); ("city", JString "Frankfurt"); ("type", JString "derivatives")];
    JDict [("id", JString "TMX"); ("name", JString "TMX Group (Toronto)"); ("lat", JFloat 43.6532); ("lon", JFloat (-79.3832)); ("city", JString "Toronto"); ("type", JString "equity")];
    JDict [("id", JString "BSE"); ("name", JString "Bombay Stock Exchange"); ("lat", JFloat 18.9292); ("lon", JFloat 72.8333); ("city", JString "Mumbai"); ("type", JString "equity")];
    JDict [("id", JString "KRX"); ("name", JString "Korea Exchange"); ("lat", JFloat 37.5665); ("lon", JFloat 126.9780); ("city", JString "Seoul"); ("type", JString "equity")];
    JDict [("id", JString "ASX"); ("name", JString "Australian Securities Exchange"); ("lat", JFloat (-33.8688)); ("lon", JFloat 151.2093); ("city", JString "Sydney"); ("type", JString "equity")];
    JDict [("id", JString "BMV"); ("name", JString "Mexican Stock Exchange"); ("lat", JFloat 19.4326); ("lon", JFloat (-99.1332)); ("city", JString "Mexico City"); ("type", JString "equity")];
    JDict [("id", JString "B3"); ("name", JString "B3 (Brazil)"); ("lat", JFloat (-23.5505)); ("lon", JFloat (-46.6333)); ("city", JString "SÃ£o Paulo"); ("type", JString "equity")];
    JDict [("id", JString "SIX"); ("name", JString "SIX Swiss Exchange"); ("lat", JFloat 47.3769); ("lon", JFloat 8.5417); ("city", JString "Zurich"); ("type", JString "equity")];
    JDict [("id", JString "BINANCE"); ("name", JString "Binance (Virtual)"); ("lat", JFloat 1.3521); ("lon", JFloat 103.8198); ("city", JString "Singapore"); ("type", JString "crypto")];
    JDict [("id", JString "COINBASE"); ("name", JString "Coinbase"); ("lat", JFloat 37.7749); ("lon", JFloat (-122.4194)); ("city", JString "San Francisco"); ("type", JString "crypto")];
    JDict [("id", JString "KRAKEN"); ("name", JString "Kraken"); ("lat", JFloat 37.7749); ("lon", JFloat (-122.4194)); ("city", JString "San Francisco"); ("type", JString "crypto")];
    JDict [("id", JString "BITFINEX"); ("name", JString "Bitfinex"); ("lat", JFloat 51.5074); ("lon", JFloat (-0.1278)); ("city", JString "London"); ("type", JString "crypto")];
    JDict [("id", JString "HUOBI"); ("name", JString "Huobi"); ("lat", JFloat 1.3521); ("lon", JFloat 103.8198); ("city", JString "Singapore"); ("type", JString "crypto")];
    JDict [("id", JString "FTX"); ("name", JString "FTX (Historical)"); ("lat", JFloat 25.7617); ("lon", JFloat (-80.1918)); ("city", JString "Miami"); ("type", JString "crypto")];
    JDict [("id", JString "GEMINI"); ("name", JString "Gemini"); ("lat", JFloat 40.7128); ("lon", JFloat (-74.0060)); ("city", JString "New York"); ("type", JString "crypto")];
    JDict [("id", JString "BYBIT"); ("name", JString "Bybit"); ("lat", JFloat 22.3193); ("lon", JFloat 114.1694); ("city", JString "Hong Kong"); ("type", JString "crypto")]
  ])].

#[local] Set Warnings "inexact-float".

Definition CMAKE_TEMPLATE : string :=
  "cmake_minimum_required(VERSION 3.15)
project(LatencyArbSimulator VERSION 1.0 LANGUAGES CXX)

set(CMAKE_CXX_STANDARD 17)
set(CMAKE_CXX_STANDARD_REQUIRED ON)

# Find vcpkg packages
find_package(glfw3 CONFIG REQUIRED)
find_package(glm CONFIG REQUIRED)
find_package(imgui CONFIG REQUIRED)
find_package(OpenGL REQUIRED)
find_package(Boost REQUIRED COMPONENTS graph)
find_package(nlohmann_json CONFIG REQUIRED)

# Source files
file(GLOB_RECURSE SOURCES " +:+ dq +:+ "src/*.cpp" +:+ dq +:+ ")
file(GLOB_RECURSE HEADERS " +:+ dq +:+ "include/*.h" +:+ dq +:+ ")

# Executable
add_executable(${PROJECT_NAME} ${SOURCES} ${HEADERS})

# Include directories
target_include_directories(${PROJECT_NAME} PRIVATE 
    ${CMAKE_SOURCE_DIR}/include
)

# Link libraries
target_link_libraries(${PROJECT_NAME} PRIVATE
    glfw
    glm::glm
    imgui::imgui
    OpenGL::GL
    Boost::graph
    nlohmann_json::nlohmann_json
)

# Copy data and shaders to build directory
file(COPY ${CMAKE_SOURCE_DIR}/data DESTINATION ${CMAKE_BINARY_DIR})
file(COPY ${CMAKE_SOURCE_DIR}/shaders DESTINATION ${CMAKE_BINARY_DIR})

# Set working directory for Visual Studio
set_property(TARGET ${PROJECT_NAME} PROPERTY VS_DEBUGGER_WORKING_DIRECTORY " +:+ dq +:+ "${CMAKE_BINARY_DIR}" +:+ dq +:+ ")
".

Definition MAIN_CPP_TEMPLATE : string :=
  "#include <iostream>
#include <GLFW/glfw3.h>
#include " +:+ dq +:+ "imgui.h" +:+ dq +:+ "
#include " +:+ dq +:+ "imgui_impl_glfw.h" +:+ dq +:+ "
#include " +:+ dq +:+ "imgui_impl_opengl3.h" +:+ dq +:+ "

int main() {
    std::cout << " +:+ dq +:+ "Latency Arbitrage Simulator - Initializing..." +:+ dq +:+ " << std::endl;
    
    // Initialize GLFW
    if (!glfwInit()) {
        std::cerr << " +:+ dq +:+ "Failed to initialize GLFW" +:+ dq +:+ " << std::endl;
        return -1;
    }
    
    // Create window
    glfwWindowHint(GLFW_CONTEXT_VERSION_MAJOR, 3);
    glfwWindowHint(GLFW_CONTEXT_VERSION_MINOR, 3);
    glfwWindowHint(GLFW_OPENGL_PROFILE, GLFW_OPENGL_CORE_PROFILE);
    
    GLFWwindow* window = glfwCreateWindow(1920, 1080, " +:+ dq +:+ "Latency Arbitrage Simulator" +:+ dq +:+ ", nullptr, nullptr);
    if (!window) {
        std::cerr << " +:+ dq +:+ "Failed to create GLFW window" +:+ dq +:+ " << std::endl;
        glfwTerminate();
        return -1;
    }
    
    glfwMakeContextCurrent(window);
    glfwSwapInterval(1); // Enable vsync
    
    // Initialize Dear ImGui
    IMGUI_CHECKVERSION();
    ImGui::CreateContext();
    ImGuiIO& io = ImGui::GetIO();
    ImGui::StyleColorsDark();
    
    ImGui_ImplGlfw_InitForOpenGL(window, true);
    ImGui_ImplOpenGL3_Init(" +:+ dq +:+ "#version 330" +:+ dq +:+ ");
    
    std::cout << " +:+ dq +:+ "Setup complete! Window created." +:+ dq +:+ " << std::endl;
    
    // Main loop
    while (!glfwWindowShouldClose(window)) {
        glfwPollEvents();
        
        // Start ImGui frame
        ImGui_ImplOpenGL3_NewFrame();
        ImGui_ImplGlfw_NewFrame();
        ImGui::NewFrame();
        
        // Simple UI test
        ImGui::Begin(" +:+ dq +:+ "Latency Arbitrage Simulator" +:+ dq +:+ ");
        ImGui::Text(" +:+ dq +:+ "Application running!" +:+ dq +:+ ");
        ImGui::Text(" +:+ dq +:+ "FPS: %.1f" +:+ dq +:+ ", io.Framerate);
        if (ImGui::Button(" +:+ dq +:+ "Click Me!" +:+ dq +:+ ")) {
            std::cout << " +:+ dq +:+ "Button clicked!" +:+ dq +:+ " << std::endl;
        }
        ImGui::End();
        
        // Render
        ImGui::Render();
        int display_w, display_h;
        glfwGetFramebufferSize(window, &display_w, &display_h);
        glViewport(0, 0, display_w, display_h);
        glClearColor(0.1f, 0.1f, 0.1f, 1.0f);
        glClear(GL_COLOR_BUFFER_BIT);
        ImGui_ImplOpenGL3_RenderDrawData(ImGui::GetDrawData());
        
        glfwSwapBuffers(window);
    }
    
    // Cleanup
    ImGui_ImplOpenGL3_Shutdown();
    ImGui_ImplGlfw_Shutdown();
    ImGui::DestroyContext();
    glfwDestroyWindow(window);
    glfwTerminate();
    
    return 0;
}
".

Definition README_TEMPLATE : string :=
  "# Latency Arbitrage Simulator

Real-world latency arbitrage modeling across global cryptocurrency and traditional exchanges.

## Features
- 23+ global exchanges with real GPS coordinates
- Speed-of-light latency calculations
- Network topology optimization
- Interactive 3D globe visualization
- Arbitrage opportunity scanner

## Build Instructions

### Prerequisites
- Visual Studio Build Tools 2022
- CMake 3.15+
- vcpkg

### Building
```bash
mkdir build
cd build
cmake .. -DCMAKE_TOOLCHAIN_FILE=D:/vcpkg/scripts/buildsystems/vcpkg.cmake
cmake --build . --config Release
```

### Running
```bash
cd build/Release
./LatencyArbSimulator.exe
```

## Project Structure
```
latency-arb-simulator/
â”œâ”€â”€ src/           # Source files
â”œâ”€â”€ include/       # Header files
â”œâ”€â”€ data/          # Exchange data (JSON)
â”œâ”€â”€ shaders/       # OpenGL shaders
â””â”€â”€ build/         # Build output
```

## Tech Stack
- C++17
- OpenGL 3.3+
- Dear ImGui
- GLFW
- GLM
- Boost.Graph

## License
MIT
".

Definition VSCODE_SETTINGS : json :=
  JDict [
    ("C_Cpp.default.configurationProvider", JString "ms-vscode.cmake-tools");
    ("cmake.configureSettings", JDict [
      ("CMAKE_TOOLCHAIN_FILE", JString "D:/vcpkg/scripts/buildsystems/vcpkg.cmake")
    ]);
    ("files.associations", JDict [
      ("*.h", JString "cpp");
      ("*.cpp", JString "cpp")
    ])
  ].

(** [json.dump(obj, f, indent=indent)] on a file opened for writing. *)
Definition json_dump (obj : json) (path : Path) (indent : nat) : Py unit :=
  open_w path (JsonDump obj indent).

(** [f.write(text)] on a file opened for writing. *)
Definition write (text : string) (path : Path) : Py unit :=
  open_w path (Text text).

Definition create_project_structure : Py unit :=
  print "ðŸš€ Creating Latency Arbitrage Simulator Project Structure...
" ;;
  (* Create root directory *)
  Path_mkdir PROJECT_ROOT true true ;;
  os_chdir PROJECT_ROOT ;;
  (* Create directories *)
  print "ðŸ“ Creating directories..." ;;
  for_each DIRECTORIES (λ directory,
    let path := (PROJECT_ROOT / directory)%path in
    Path_mkdir path false true ;;
    print ("   âœ“ " +:+ directory +:+ "/")) ;;
  (* Create .vscode directory and settings *)
  let vscode_dir := (PROJECT_ROOT / ".vscode")%path in
  Path_mkdir vscode_dir false true ;;
  json_dump VSCODE_SETTINGS (vscode_dir / "settings.json") 4 ;;
  print "   âœ“ .vscode/" ;;
  (* Write CMakeLists.txt *)
  print "
ðŸ“ Creating CMakeLists.txt..." ;;
  write CMAKE_TEMPLATE (PROJECT_ROOT / "CMakeLists.txt") ;;
  print "   âœ“ CMakeLists.txt" ;;
  (* Write main.cpp *)
  print "
ðŸ“ Creating main.cpp..." ;;
  write MAIN_CPP_TEMPLATE (PROJECT_ROOT / "src" / "main.cpp") ;;
  print "   âœ“ src/main.cpp" ;;
  (* Write exchanges.json *)
  print "
ðŸ“ Creating exchanges.json..." ;;
  json_dump EXCHANGE_DATA (PROJECT_ROOT / "data" / "exchanges.json") 4 ;;
  print "   âœ“ data/exchanges.json" ;;
  (* Write README.md *)
  print "
ðŸ“ Creating README.md..." ;;
  write README_TEMPLATE (PROJECT_ROOT / "README.md") ;;
  print "   âœ“ README.md" ;;
  (* Create placeholder shader files *)
  print "
ðŸ“ Creating shader placeholders..." ;;
  write "// Vertex shader - to be implemented
" (PROJECT_ROOT / "shaders" / "globe_vertex.glsl") ;;
  write "// Fragment shader - to be implemented
" (PROJECT_ROOT / "shaders" / "globe_fragment.glsl") ;;
  print "   âœ“ shaders/globe_vertex.glsl" ;;
  print "   âœ“ shaders/globe_fragment.glsl" ;;
  (* Create .gitignore *)
  print "
ðŸ“ Creating .gitignore..." ;;
  write "build/
*.exe
*.obj
*.pdb
.vs/
.vscode/
" (PROJECT_ROOT / ".gitignore") ;;
  print "   âœ“ .gitignore" ;;
  print "
âœ… Project structure created successfully!" ;;
  print ("
ðŸ“ Project location: " +:+ Path_str PROJECT_ROOT) ;;
  print "
ðŸŽ¯ Next steps:" ;;
  print "   1. Install Visual Studio Build Tools 2022" ;;
  print "   2. Install vcpkg and libraries" ;;
  print "   3. Open VS Code in this folder" ;;
  print "   4. Run: cmake --configure" ;;
  print "   5. Run: cmake --build .".

End setup.

(** ** download_glad.py *)

Module download_glad.

Definition PROJECT_ROOT : Path :=
  Anchor "D:\" / "Projects" / "Latency-Arb-Simulator".

Definition GLAD_URL : string :=
  "https://github.com/Dav1dde/glad/archive/refs/heads/master.zip".

Definition download_glad : Py unit :=
  print "📥 Downloading GLAD from GitHub..." ;;
  (* Create external directory *)
  let external_dir := (PROJECT_ROOT / "external")%path in
  Path_mkdir external_dir false true ;;
  (* Download GLAD generator *)
  let zip_path := (external_dir / "glad.zip")%path in
  (* For simplicity, we'll create a minimal GLAD setup manually *)
  let glad_dir := (external_dir / "glad")%path in
  Path_mkdir glad_dir false true ;;
  let include_dir := (glad_dir / "include")%path in
  Path_mkdir include_dir false true ;;
  let glad_h_dir := (include_dir / "glad")%path in
  Path_mkdir glad_h_dir false true ;;
  let khr_dir := (include_dir / "KHR")%path in
  Path_mkdir khr_dir false true ;;
  let src_dir := (glad_dir / "src")%path in
  Path_mkdir src_dir false true ;;
  print ("✅ Created GLAD directory structure at " +:+ Path_str glad_dir) ;;
  print "
⚠️  Manual Step Required:" ;;
  print "1. Visit: https://glad.dav1d.de/" ;;
  print "2. Settings:" ;;
  print "   - Language: C/C++" ;;
  print "   - Specification: OpenGL" ;;
  print "   - gl: Version 3.3" ;;
  print "   - Profile: Core" ;;
  print "3. Click GENERATE" ;;
  print "4. Download the ZIP" ;;
  print "5. Extract and copy:" ;;
  print ("   - Copy glad/include/glad/* to " +:+ Path_str glad_h_dir +:+ "/") ;;
  print ("   - Copy glad/include/KHR/* to " +:+ Path_str khr_dir +:+ "/") ;;
  print ("   - Copy glad/src/glad.c to " +:+ Path_str src_dir +:+ "/") ;;
  print "
Then re-run CMake!".

End download_glad.

(** ** The exchange catalog *)

(** [EXCHANGE_DATA["exchanges"]], the catalog. *)
Definition catalog : list json :=
  match dict_get "exchanges" setup.EXCHANGE_DATA with
  | Some (JList entries) => entries
  | _ => []
  end.

(** The fields of a catalog entry and the venue types, as the design
    document lists them. *)
Definition ENTRY_FIELDS : list string :=
  ["id"; "name"; "lat"; "lon"; "city"; "type"].

Definition VENUE_TYPES : list string :=
  ["equity"; "derivatives"; "crypto"].

(** [entry[key]] when it is a string, and when it is a float. *)
Definition str_field (key : string) (entry : json) : option string :=
  match dict_get key entry with
  | Some (JString s) => Some s
  | _ => None
  end.

Definition float_field (key : string) (entry : json) : option float :=
  match dict_get key entry with
  | Some (JFloat x) => Some x
  | _ => None
  end.

(** The entry of the catalog with a given id, if any (the first one). *)
Definition find_exchange (id : string) : option json :=
  list_find (λ e, str_field "id" e = Some id) catalog ≫= λ '(_, e), Some e.

(** Decimal degrees that are a place on the globe; the comparisons are
    Python's [<=] on floats. *)
Definition valid_lat (lat : float) : bool :=
  ((-90 <=? lat) && (lat <=? 90))%float.

Definition valid_lon (lon : float) : bool :=
  ((-180 <=? lon) && (lon <=? 180))%float.

(** Two entries at the same coordinates: Python's [==] on both floats. *)
Definition coincident (e1 e2 : json) : bool :=
  match float_field "lat" e1, float_field "lon" e1,
        float_field "lat" e2, float_field "lon" e2 with
  | Some lat1, Some lon1, Some lat2, Some lon2 =>
      ((lat1 =? lat2) && (lon1 =? lon2))%float
  | _, _, _, _ => false
  end.

(** ** The project layout and the effects of the scripts *)

(** The directories and files [create_project_structure] is to make below
    the project root, each with what it is to hold (in the order the script
    makes them). *)
Definition PROJECT_LAYOUT : list (Path * Node) :=
  let root := setup.PROJECT_ROOT in
  [ ((root / "src")%path, Dir);
    ((root / "include")%path, Dir);
    ((root / "data")%path, Dir);
    ((root / "shaders")%path, Dir);
    ((root / "build")%path, Dir);
    ((root / "docs")%path, Dir);
    ((root / "tests")%path, Dir);
    ((root / ".vscode")%path, Dir);
    ((root / ".vscode" / "settings.json")%path, File (JsonDump setup.VSCODE_SETTINGS 4));
    ((root / "CMakeLists.txt")%path, File (Text setup.CMAKE_TEMPLATE));
    ((root / "src" / "main.cpp")%path, File (Text setup.MAIN_CPP_TEMPLATE));
    ((root / "data" / "exchanges.json")%path, File (JsonDump setup.EXCHANGE_DATA 4));
    ((root / "README.md")%path, File (Text setup.README_TEMPLATE));
    ((root / "shaders" / "globe_vertex.glsl")%path,
     File (Text "// Vertex shader - to be implemented
"));
    ((root / "shaders" / "globe_fragment.glsl")%path,
     File (Text "// Fragment shader - to be implemented
"));
    ((root / ".gitignore")%path, File (Text "build/
*.exe
*.obj
*.pdb
.vs/
.vscode/
")) ].

(** A map with the entries of a list stored in it, one after the other. *)
Definition insert_all (m : gmap Path Node) (entries : list (Path * Node)) :
    gmap Path Node :=
  foldl (λ acc entry, <[entry.1 := entry.2]> acc) m entries.

(** What the script needs of a path of the layout once the project root is
    there: a directory to make is free or a directory already, and a file to
    write is no directory. *)
Definition accepts (m : gmap Path Node) (entry : Path * Node) : Prop :=
  match entry.2 with
  | Dir => m !! entry.1 = None ∨ m !! entry.1 = Some Dir
  | File _ => m !! entry.1 ≠ Some Dir
  end.

Definition layout_free (m : gmap Path Node) : Prop :=
  Forall (accepts m) PROJECT_LAYOUT.

(** A map in which [p] and everything it lies in are directories. *)
Fixpoint ensure_dirs (p : Path) (m : gmap Path Node) : gmap Path Node :=
  match p with
  | Anchor _ => <[p := Dir]> m
  | Div parent _ => <[p := Dir]> (ensure_dirs parent m)
  end.

(** The drive of [p] is there, and no regular file stands where [p] or a
    directory it lies in should be. *)
Fixpoint can_make_dirs (p : Path) (m : gmap Path Node) : Prop :=
  match p with
  | Anchor _ => m !! p = Some Dir
  | Div parent _ => (m !! p = None ∨ m !! p = Some Dir) ∧ can_make_dirs parent m
  end.

Fixpoint Path_depth (p : Path) : nat :=
  match p with
  | Anchor _ => 0
  | Div parent _ => S (Path_depth parent)
  end.

(** [create_project_structure] makes the layout and touches nothing else, at
    a state [s]: the run returns, the listed directories and files are there
    with their contents, and no path but these and the project root has
    changed. *)
Definition creates_exactly_layout (s : State) : Prop :=
  ∃ s', setup.create_project_structure s = (Returned tt, s') ∧
    (∀ p n, (p, n) ∈ PROJECT_LAYOUT → fs s' !! p = Some n) ∧
    (∀ p, p ∉ PROJECT_LAYOUT.*1 → p ≠ setup.PROJECT_ROOT →
          fs s' !! p = fs s !! p).

(** The six directories [download_glad] makes. *)
Definition GLAD_DIRS : list Path :=
  let root := download_glad.PROJECT_ROOT in
  [ (root / "external")%path;
    (root / "external" / "glad")%path;
    (root / "external" / "glad" / "include")%path;
    (root / "external" / "glad" / "include" / "glad")%path;
    (root / "external" / "glad" / "include" / "KHR")%path;
    (root / "external" / "glad" / "src")%path ].

(** From [s] to [s'] nothing happened but, at most, directories of [dirs]
    coming into being where nothing was: no file was written, nothing was
    removed, the working directory is the same and no request was made. *)
Definition only_creates (dirs : list Path) (s s' : State) : Prop :=
  requests s' = requests s ∧ cwd s' = cwd s ∧
  ∀ p, fs s' !! p = fs s !! p ∨
       (p ∈ dirs ∧ fs s !! p = None ∧ fs s' !! p = Some Dir).

(** A computation that does no more than that, however it ends. *)
Definition confined {A} (dirs : list Path) (m : Py A) : Prop :=
  ∀ s r s', m s = (r, s') → only_creates dirs s s'.

(** The lines of the manual instructions that name the generator and the
    copy steps. *)
Definition GLAD_INSTRUCTIONS : list string :=
  [ "1. Visit: https://glad.dav1d.de/";
    "3. Click GENERATE";
    "4. Download the ZIP";
    "5. Extract and copy:";
    "   - Copy glad/include/glad/* to D:\Projects\Latency-Arb-Simulator\external\glad\include\glad/";
    "   - Copy glad/include/KHR/* to D:\Projects\Latency-Arb-Simulator\external\glad\include\KHR/";
    "   - Copy glad/src/glad.c to D:\Projects\Latency-Arb-Simulator\external\glad\src/" ].

(** Concrete states to run the scripts in: a drive [D:\] with nothing on it,
    one where [D:\Projects] is a regular file, and one where the project root
    is an empty directory. *)
Definition fresh_drive : State :=
  {| fs := {[ Anchor "D:\" := Dir ]};
     cwd := Anchor "D:\"; stdout := []; requests := [] |}.

Definition projects_is_a_file : State :=
  {| fs := <[(Anchor "D:\" / "Projects")%path := File (Text "notes")]>
             {[ Anchor "D:\" := Dir ]};
     cwd := Anchor "D:\"; stdout := []; requests := [] |}.

Definition empty_project : State :=
  {| fs := <[setup.PROJECT_ROOT := Dir]>
             (<[(Anchor "D:\" / "Projects")%path := Dir]>
                {[ Anchor "D:\" := Dir ]});
     cwd := Anchor "D:\"; stdout := []; requests := [] |}.

(** ** What a run may do to the file system *)

(** From [s] to [s'] the file system only grew: a path is as it was, or it
    is one of [dirs], was free and is now a directory, or it is one of
    [files], was no directory and is now a regular file.  Nothing is removed,
    no directory becomes a file or a file a directory, and no request was
    made over the network. *)
Definition only_grows (dirs files : list Path) (s s' : State) : Prop :=
  requests s' = requests s ∧
  ∀ p, fs s' !! p = fs s !! p ∨
       (p ∈ dirs ∧ fs s !! p = None ∧ fs s' !! p = Some Dir) ∨
       (p ∈ files ∧ fs s !! p ≠ Some Dir ∧ ∃ c, fs s' !! p = Some (File c)).

(** A computation that does no more than that, however it ends. *)
Definition grows_within {A} (dirs files : list Path) (m : Py A) : Prop :=
  ∀ s r s', m s = (r, s') → only_grows dirs files s s'.

(** [p] and the directories it lies in, the drive apart, are among [dirs]. *)
Fixpoint chain_in (dirs : list Path) (p : Path) : Prop :=
  match p with
  | Anchor _ => True
  | Div parent _ => p ∈ dirs ∧ chain_in dirs parent
  end.

Global Instance Node_is_dir_dec (n : Node) : Decision (n = Dir).
Proof. destruct n; [left | right]; done. Defined.

(** The directories [create_project_structure] may make (the project root,
    [D:\Projects] and the eight of the layout) and the files it may write
    (the eight of the layout). *)
Definition SETUP_DIRS : list Path :=
  setup.PROJECT_ROOT :: Path_parent setup.PROJECT_ROOT ::
  (filter (λ e, e.2 = Dir) PROJECT_LAYOUT).*1.

Definition SETUP_FILES : list Path :=
  (filter (λ e, e.2 ≠ Dir) PROJECT_LAYOUT).*1.

(** A project where [src/main.cpp] was edited by hand. *)
Definition edited_project : State :=
  {| fs := <[(setup.PROJECT_ROOT / "src" / "main.cpp")%path
               := File (Text "int main() { return 0; }")]>
             (<[(setup.PROJECT_ROOT / "src")%path := Dir]> (fs empty_project));
     cwd := Anchor "D:\"; stdout := []; requests := [] |}.

(** [path.anchor]: the drive and root a path starts from. *)
Fixpoint Path_anchor (p : Path) : Path :=
  match p with
  | Anchor _ => p
  | Div parent _ => Path_anchor parent
  end.

(** A machine with a drive [C:\] and no drive [D:\], and a project where
    [include] is a regular file. *)
Definition no_d_drive : State :=
  {| fs := {[ Anchor "C:\" := Dir ]};
     cwd := Anchor "C:\"; stdout := []; requests := [] |}.

Definition include_is_a_file : State :=
  {| fs := <[(setup.PROJECT_ROOT / "include")%path := File (Text "notes")]>
             (fs empty_project);
     cwd := Anchor "D:\"; stdout := []; requests := [] |}.

(** * Properties *)

(** ** Paths and file-system maps *)

Lemma Div_neq_parent (p : Path) (name : string) : (p / name)%path ≠ p.
Proof.
  revert name. induction p as [d | q IH n]; intros name H; [done |].
  injection H as Hq Hn. by apply (IH n).
Qed.

Lemma wf_fs_absent (m : gmap Path Node) (p : Path) (name : string) :
  wf_fs m → m !! p = None → m !! (p / name)%path = None.
Proof.
  intros Hwf Hp. destruct (m !! (p / name)%path) as [n |] eqn:E; [| done].
  assert (m !! p = Some Dir) by (apply (Hwf p name); eauto). congruence.
Qed.

Lemma with_fs_id (s : State) : with_fs (fs s) s = s.
Proof. by destruct s. Qed.

Lemma with_fs_insert_id (s : State) (p : Path) (n : Node) :
  fs s !! p = Some n → with_fs (<[p := n]> (fs s)) s = s.
Proof. intros H. rewrite insert_id by done. apply with_fs_id. Qed.

(** ** The monad *)

Lemma bind_returned {A B} (m : Py A) (k : A → Py B) (s s1 : State) (a : A) :
  m s = (Returned a, s1) → (m ≫= k) s = k a s1.
Proof. intros H. unfold mbind, Py_bind, bind. by rewrite H. Qed.

Lemma bind_raised {A B} (m : Py A) (k : A → Py B) (s s1 : State) (e : OSError) :
  m s = (Raised e, s1) → (m ≫= k) s = (Raised e, s1).
Proof. intros H. unfold mbind, Py_bind, bind. by rewrite H. Qed.

Lemma bind_returned_inv {A B} (m : Py A) (k : A → Py B) (s s2 : State) (b : B) :
  (m ≫= k) s = (Returned b, s2) →
  ∃ a s1, m s = (Returned a, s1) ∧ k a s1 = (Returned b, s2).
Proof.
  unfold mbind, Py_bind, bind. destruct (m s) as [[a | e] s1]; [eauto | done].
Qed.

(** ** The library calls *)

Lemma print_returned (line : string) (s s' : State) (u : unit) :
  print line s = (Returned u, s') → s' = with_stdout (stdout s ++ [line]) s.
Proof. unfold print. congruence. Qed.

(** With [parents=False], [Path.mkdir] is [mkdir_here]. *)
Lemma Path_mkdir_here (p : Path) (exist_ok : bool) (s : State) :
  Path_mkdir p false exist_ok s = mkdir_here p exist_ok s.
Proof.
  destruct p as [d | q n]; unfold mkdir_here; simpl; unfold try_except;
    destruct (os_mkdir _ s) as [[[] | []] s1]; reflexivity.
Qed.

(** A successful [os.mkdir] adds the directory and nothing else; a failed one
    changes nothing. *)
Lemma os_mkdir_returned (p : Path) (s s' : State) (u : unit) :
  os_mkdir p s = (Returned u, s') →
  fs s !! p = None ∧ s' = with_fs (<[p := Dir]> (fs s)) s.
Proof.
  unfold os_mkdir. destruct (fs s !! p) eqn:Hp; [done |].
  destruct p as [d | q n]; [done |].
  destruct (fs s !! q) as [[] |]; [| done | done].
  intros [= <-]. done.
Qed.

Lemma os_mkdir_raised (p : Path) (s s' : State) (e : OSError) :
  os_mkdir p s = (Raised e, s') → s' = s.
Proof.
  unfold os_mkdir. destruct (fs s !! p); [congruence |].
  destruct p as [d | q n]; [congruence |].
  destruct (fs s !! q) as [[] |]; congruence.
Qed.

Lemma os_mkdir_new (p : Path) (name : string) (s : State) :
  fs s !! p = Some Dir → fs s !! (p / name)%path = None →
  os_mkdir (p / name) s = (Returned tt, with_fs (<[(p / name)%path := Dir]> (fs s)) s).
Proof. intros Hp Hn. unfold os_mkdir. by rewrite Hn, Hp. Qed.

Lemma os_mkdir_exists (p : Path) (n : Node) (s : State) :
  fs s !! p = Some n → os_mkdir p s = (Raised FileExistsError, s).
Proof. intros Hp. unfold os_mkdir. by rewrite Hp. Qed.

(** [mkdir(exist_ok=True)] on a directory that is there does nothing. *)
Lemma mkdir_here_exists (p : Path) (s : State) :
  fs s !! p = Some Dir → mkdir_here p true s = (Returned tt, s).
Proof.
  intros Hp. unfold mkdir_here, try_except. rewrite (os_mkdir_exists p Dir) by done.
  unfold mbind, Py_bind, bind, Path_is_dir. by rewrite Hp.
Qed.

Lemma Path_mkdir_exists (p : Path) (parents : bool) (s : State) :
  fs s !! p = Some Dir → Path_mkdir p parents true s = (Returned tt, s).
Proof.
  intros Hp. destruct p as [d | q n]; simpl; unfold try_except;
    rewrite (os_mkdir_exists _ Dir) by done;
    unfold mbind, Py_bind, bind, Path_is_dir; by rewrite Hp.
Qed.

(** [mkdir(exist_ok=True)] below a directory, on a name that is free or a
    directory already: afterwards the directory is there. *)
Lemma mkdir_here_run (p : Path) (name : string) (s : State) :
  fs s !! p = Some Dir →
  fs s !! (p / name)%path = None ∨ fs s !! (p / name)%path = Some Dir →
  mkdir_here (p / name) true s
  = (Returned tt, with_fs (<[(p / name)%path := Dir]> (fs s)) s).
Proof.
  intros Hp [Hn | Hn].
  - unfold mkdir_here, try_except. by rewrite (os_mkdir_new p name s).
  - rewrite mkdir_here_exists by done. by rewrite with_fs_insert_id.
Qed.

(** Whatever happens, [mkdir_here] changes the file system at most by
    creating the directory it is asked for. *)
Lemma mkdir_here_effect (p : Path) (exist_ok : bool) (s s' : State) (r : Outcome unit) :
  mkdir_here p exist_ok s = (r, s') →
  s' = s ∨ (fs s !! p = None ∧ s' = with_fs (<[p := Dir]> (fs s)) s).
Proof.
  unfold mkdir_here, try_except.
  destruct (os_mkdir p s) as [[[] | e] s1] eqn:E.
  - apply os_mkdir_returned in E as [Hn ->]. intros [= <- <-]. by right.
  - apply os_mkdir_raised in E as ->. left.
    destruct e; unfold raise, ret, mbind, Py_bind, bind, Path_is_dir in *;
      intros; repeat case_match; simplify_eq; try done.
Qed.

Lemma mkdir_here_returned (p : Path) (s s' : State) (u : unit) :
  mkdir_here p true s = (Returned u, s') →
  s' = with_fs (<[p := Dir]> (fs s)) s.
Proof.
  unfold mkdir_here, try_except.
  destruct (os_mkdir p s) as [[[] | e] s1] eqn:E.
  - apply os_mkdir_returned in E as [Hn ->]. by intros [= <-].
  - apply os_mkdir_raised in E as ->.
    destruct e; unfold raise, ret, mbind, Py_bind, bind, Path_is_dir; simpl;
      try done; destruct (fs s !! p) as [[] |] eqn:Hp; simpl; try done;
      intros [= <-]; by rewrite with_fs_insert_id.
Qed.

(** After a successful [mkdir(parents=True, exist_ok=True)] the directory is
    there. *)
Lemma Path_mkdir_returned (p : Path) (parents : bool) (s s' : State) (u : unit) :
  Path_mkdir p parents true s = (Returned u, s') → fs s' !! p = Some Dir.
Proof.
  destruct u.
  assert (Hexists : ∀ e,
    (is_dir ← Path_is_dir p; if negb true || negb is_dir then raise e else ret tt) s
    = (Returned tt, s') → fs s' !! p = Some Dir).
  { intros e. unfold raise, ret, mbind, Py_bind, bind, Path_is_dir.
    destruct (fs s !! p) as [[] |] eqn:Hp; simpl; try done. by intros [= <-]. }
  destruct p as [d | q n]; simpl; unfold try_except;
    destruct (os_mkdir _ s) as [[[] | e] s1] eqn:E.
  - apply os_mkdir_returned in E as [_ ->]. intros [= <-]. apply lookup_insert_eq.
  - apply os_mkdir_raised in E as ->. destruct e; try done; apply Hexists.
  - apply os_mkdir_returned in E as [_ ->]. intros [= <-]. apply lookup_insert_eq.
  - apply os_mkdir_raised in E as ->. destruct e; try apply Hexists.
    destruct parents; simpl; [| done].
    intros H. apply bind_returned_inv in H as (a & s1 & _ & H).
    apply mkdir_here_returned in H as ->. apply lookup_insert_eq.
Qed.

Lemma os_chdir_run (p : Path) (s : State) :
  fs s !! p = Some Dir → os_chdir p s = (Returned tt, with_cwd p s).
Proof. intros Hp. unfold os_chdir. by rewrite Hp. Qed.

Lemma os_chdir_returned (p : Path) (s s' : State) (u : unit) :
  os_chdir p s = (Returned u, s') → s' = with_cwd p s.
Proof.
  unfold os_chdir. destruct (fs s !! p) as [[] |]; [| done | done].
  by intros [= <-].
Qed.

Lemma open_w_run (p : Path) (name : string) (c : Content) (s : State) :
  fs s !! p = Some Dir → fs s !! (p / name)%path ≠ Some Dir →
  open_w (p / name) c s
  = (Returned tt, with_fs (<[(p / name)%path := File c]> (fs s)) s).
Proof.
  intros Hp Hn. unfold open_w. rewrite Hp.
  by destruct (fs s !! (p / name)%path) as [[] |].
Qed.

Lemma open_w_returned (p : Path) (c : Content) (s s' : State) (u : unit) :
  open_w p c s = (Returned u, s') →
  s' = with_fs (<[p := File c]> (fs s)) s.
Proof.
  unfold open_w. destruct p as [d | q n].
  - by destruct (fs s !! Anchor d) as [[] |].
  - destruct (fs s !! (q / n)%path) as [[] |]; [done | |];
      (destruct (fs s !! q) as [[] |]; [| done | done]); by intros [= <-].
Qed.

(** ** Maps built by repeated insertion *)

Lemma lookup_insert_all_notin (entries : list (Path * Node)) (m : gmap Path Node) (p : Path) :
  p ∉ entries.*1 → insert_all m entries !! p = m !! p.
Proof.
  revert m. induction entries as [| [q n] entries IH]; intros m Hp; [done |].
  apply not_elem_of_cons in Hp as [Hq Hp]. unfold insert_all in *. simpl.
  rewrite IH by done. by apply lookup_insert_ne.
Qed.

Lemma lookup_insert_all_in (entries : list (Path * Node)) (m : gmap Path Node)
    (p : Path) (n : Node) :
  NoDup entries.*1 → (p, n) ∈ entries → insert_all m entries !! p = Some n.
Proof.
  revert m. induction entries as [| [q n'] entries IH]; intros m Hnd Hin.
  - by apply elem_of_nil in Hin.
  - apply NoDup_cons in Hnd as [Hq Hnd]. apply elem_of_cons in Hin as [[= -> ->] | Hin].
    + change (insert_all (<[q := n']> m) entries !! q = Some n').
      rewrite lookup_insert_all_notin by done. apply lookup_insert_eq.
    + by apply (IH (<[q := n']> m)).
Qed.

Lemma insert_all_idempotent (entries : list (Path * Node)) (m : gmap Path Node) :
  NoDup entries.*1 → insert_all (insert_all m entries) entries = insert_all m entries.
Proof.
  intros Hnd. apply map_eq. intros p.
  destruct (decide (p ∈ entries.*1)) as [Hin | Hin].
  - apply list_elem_of_fmap in Hin as ([q n] & -> & Hin). simpl.
    by rewrite !(lookup_insert_all_in entries _ q n).
  - by rewrite !lookup_insert_all_notin.
Qed.

Lemma lookup_ensure_dirs_deeper (q p : Path) (m : gmap Path Node) :
  Path_depth q < Path_depth p → ensure_dirs q m !! p = m !! p.
Proof.
  induction q as [d | q IH n]; simpl; intros Hlt.
  - apply lookup_insert_ne. intros <-. simpl in Hlt. lia.
  - rewrite lookup_insert_ne by (intros <-; simpl in Hlt; lia).
    apply IH. lia.
Qed.

Lemma lookup_ensure_dirs_self (p : Path) (m : gmap Path Node) :
  ensure_dirs p m !! p = Some Dir.
Proof. destruct p; apply lookup_insert_eq. Qed.

(** In a well-formed file system everything above a node is a directory. *)
Lemma ensure_dirs_existing (p : Path) (m : gmap Path Node) :
  wf_fs m → m !! p = Some Dir → ensure_dirs p m = m.
Proof.
  intros Hwf. induction p as [d | q IH n]; simpl; intros Hp.
  - by apply insert_id.
  - rewrite IH by (apply (Hwf q n); eauto). by apply insert_id.
Qed.

(** [mkdir(parents=True, exist_ok=True)] on a well-formed file system, where
    no regular file is in the way: the directory and the missing ones above
    it are made. *)
Lemma Path_mkdir_parents_run (p : Path) (s : State) :
  wf_fs (fs s) → can_make_dirs p (fs s) →
  Path_mkdir p true true s = (Returned tt, with_fs (ensure_dirs p (fs s)) s).
Proof.
  intros Hwf. induction p as [d | q IH n]; intros Hcan.
  - simpl in Hcan. rewrite Path_mkdir_exists by done.
    simpl. by rewrite with_fs_insert_id.
  - destruct Hcan as [[Hp | Hp] Hq].
    + destruct (fs s !! q) as [[| c] |] eqn:Eq.
      * simpl. unfold try_except. rewrite (os_mkdir_new q n s) by done.
        by rewrite (ensure_dirs_existing q).
      * destruct q; simpl in Hq; [congruence | destruct Hq as [[?|?] _]; congruence].
      * simpl. unfold try_except, os_mkdir. rewrite Hp, Eq. simpl.
        rewrite (bind_returned _ _ _ _ _ (IH Hq)).
        rewrite mkdir_here_run.
        -- done.
        -- apply lookup_ensure_dirs_self.
        -- left. simpl. rewrite lookup_ensure_dirs_deeper by (simpl; lia). done.
    + rewrite Path_mkdir_exists by done.
      by rewrite (ensure_dirs_existing (q / n)), with_fs_id.
Qed.

(** ** Running the scripts *)

Lemma bind_assoc {A B C} (m : Py A) (f : A → Py B) (k : B → Py C) (s : State) :
  ((m ≫= f) ≫= k) s = (m ≫= λ a, f a ≫= k) s.
Proof.
  unfold mbind, Py_bind, bind. by destruct (m s) as [[a | e] s1].
Qed.

Lemma bind_ret {A B} (a : A) (k : A → Py B) (s : State) :
  (ret a ≫= k) s = k a s.
Proof. reflexivity. Qed.

Lemma Path_mkdir_run (p : Path) (name : string) (s : State) :
  fs s !! p = Some Dir →
  fs s !! (p / name)%path = None ∨ fs s !! (p / name)%path = Some Dir →
  Path_mkdir (p / name) false true s
  = (Returned tt, with_fs (<[(p / name)%path := Dir]> (fs s)) s).
Proof. intros Hp Hn. rewrite Path_mkdir_here. by apply mkdir_here_run. Qed.

Lemma Path_mkdir_false_returned (p : Path) (s s' : State) (u : unit) :
  Path_mkdir p false true s = (Returned u, s') →
  s' = with_fs (<[p := Dir]> (fs s)) s.
Proof. rewrite Path_mkdir_here. apply mkdir_here_returned. Qed.

(** The state record is kept in normal form while a script is stepped
    through. *)
Ltac norm_state :=
  unfold with_fs, with_cwd, with_stdout, with_requests;
  cbn [fs cwd stdout requests].

Ltac norm_state_in H :=
  unfold with_fs, with_cwd, with_stdout, with_requests in H;
  cbn [fs cwd stdout requests] in H.

(** Two closed paths differ. *)
Ltac path_ne := apply (bool_decide_unpack _); vm_compute; exact I.

(** A lookup in a map built by insertions at closed paths. *)
Ltac peel_inserts :=
  repeat first [ rewrite lookup_insert_eq | rewrite lookup_insert_ne by path_ne ].

(** One statement of a script that returns: [lem] says what it returns and
    [tac] proves what [lem] asks for. *)
Ltac step lem tac :=
  erewrite bind_returned; [| apply lem; norm_state; tac ]; cbv beta; norm_state.

Ltac step_print :=
  erewrite (bind_returned (print _)) by reflexivity; cbv beta; norm_state.

(** What a step of [create_project_structure] asks for: a parent that is a
    directory (made by an earlier step, or the project root), or a path the
    layout may use. *)
Ltac layout_step :=
  first [ peel_inserts; done
        | peel_inserts; assumption ].

(** The script once its [mkdir] of the project root has left the file
    system [mb], when the paths of the layout can be used: it returns, and
    has stored the layout. *)
Lemma create_project_structure_from_root (s : State) (mb : gmap Path Node) :
  (∀ out, Path_mkdir setup.PROJECT_ROOT true true (with_stdout out s)
          = (Returned tt, with_stdout out (with_fs mb s))) →
  mb !! setup.PROJECT_ROOT = Some Dir → layout_free mb →
  ∃ out, setup.create_project_structure s
    = (Returned tt,
       {| fs := insert_all mb PROJECT_LAYOUT;
          cwd := setup.PROJECT_ROOT; stdout := out; requests := requests s |}).
Proof.
  intros Hmk Hroot HL.
  unfold layout_free, PROJECT_LAYOUT in HL. cbv zeta in HL.
  repeat (apply Forall_cons in HL as [? HL]). clear HL.
  unfold accepts in *. cbn [fst snd] in *.
  eexists.
  unfold setup.create_project_structure, setup.DIRECTORIES, setup.json_dump, setup.write.
  cbn [for_each]. cbv beta zeta.
  erewrite (bind_returned (print _)) by reflexivity. cbv beta.
  erewrite bind_returned by apply Hmk. cbv beta. norm_state.
  step os_chdir_run ltac:(done).
  step_print.
  do 7 (rewrite !bind_assoc; cbv beta;
        step Path_mkdir_run ltac:(layout_step); step_print).
  rewrite bind_ret.
  step Path_mkdir_run ltac:(layout_step).
  step open_w_run ltac:(layout_step). step_print.
  step_print. step open_w_run ltac:(layout_step). step_print.
  step_print. step open_w_run ltac:(layout_step). step_print.
  step_print. step open_w_run ltac:(layout_step). step_print.
  step_print. step open_w_run ltac:(layout_step). step_print.
  step_print. step open_w_run ltac:(layout_step).
  step open_w_run ltac:(layout_step). step_print. step_print.
  step_print. step open_w_run ltac:(layout_step). step_print.
  do 7 step_print.
  reflexivity.
Qed.

(** One statement of a returned run, read backwards: [lem] says what state
    the statement left. *)
Ltac unstep H lem :=
  let Ha := fresh "Ha" in
  let sa := fresh "sa" in
  apply bind_returned_inv in H as ([] & sa & Ha & H);
  cbv beta in H; apply lem in Ha; subst sa; norm_state_in H.

Lemma layout_paths_NoDup : NoDup PROJECT_LAYOUT.*1.
Proof. apply (bool_decide_unpack _). vm_compute. exact I. Qed.

Lemma root_not_in_layout : setup.PROJECT_ROOT ∉ PROJECT_LAYOUT.*1.
Proof. apply (bool_decide_unpack _). vm_compute. exact I. Qed.

(** A run of [create_project_structure] that returns has stored the whole
    layout in a file system where the project root is a directory. *)
Lemma create_project_structure_returned (s s1 : State) :
  setup.create_project_structure s = (Returned tt, s1) →
  ∃ m, m !! setup.PROJECT_ROOT = Some Dir ∧
       fs s1 = insert_all m PROJECT_LAYOUT ∧ cwd s1 = setup.PROJECT_ROOT.
Proof.
  intros H.
  unfold setup.create_project_structure, setup.DIRECTORIES, setup.json_dump,
    setup.write in H.
  cbn [for_each] in H. cbv beta zeta in H.
  unstep H print_returned.
  apply bind_returned_inv in H as ([] & sb & Hroot & H). cbv beta in H.
  apply Path_mkdir_returned in Hroot.
  unstep H os_chdir_returned. unstep H print_returned.
  do 7 (rewrite !bind_assoc in H; cbv beta in H;
        unstep H Path_mkdir_false_returned; unstep H print_returned).
  rewrite bind_ret in H.
  unstep H Path_mkdir_false_returned.
  unstep H open_w_returned. unstep H print_returned.
  unstep H print_returned. unstep H open_w_returned. unstep H print_returned.
  unstep H print_returned. unstep H open_w_returned. unstep H print_returned.
  unstep H print_returned. unstep H open_w_returned. unstep H print_returned.
  unstep H print_returned. unstep H open_w_returned. unstep H print_returned.
  unstep H print_returned. unstep H open_w_returned. unstep H open_w_returned.
  unstep H print_returned. unstep H print_returned.
  unstep H print_returned. unstep H open_w_returned. unstep H print_returned.
  do 6 unstep H print_returned.
  apply print_returned in H. norm_state_in H. subst s1.
  exists (fs sb). by repeat split.
Qed.

(** ** Well-formed file systems to run the scripts in *)

Lemma wf_fs_drive (drive : string) : wf_fs {[ Anchor drive := Dir ]}.
Proof.
  intros p name [n H]. by rewrite lookup_singleton_ne in H.
Qed.

Lemma wf_fs_insert (m : gmap Path Node) (p : Path) (name : string) (n : Node) :
  wf_fs m → m !! p = Some Dir → m !! (p / name)%path = None →
  wf_fs (<[(p / name)%path := n]> m).
Proof.
  intros Hwf Hp Hn q nm H.
  destruct (decide ((q / nm)%path = (p / name)%path)) as [E | E].
  - injection E as -> ->. rewrite lookup_insert_ne by apply Div_neq_parent. done.
  - rewrite lookup_insert_ne in H by done. apply Hwf in H.
    rewrite lookup_insert_ne by congruence. done.
Qed.

Lemma wf_fs_fresh_drive : wf_fs (fs fresh_drive).
Proof. apply wf_fs_drive. Qed.

Lemma wf_fs_projects_is_a_file : wf_fs (fs projects_is_a_file).
Proof. apply wf_fs_insert; [apply wf_fs_drive | done | done]. Qed.

Lemma wf_fs_empty_project : wf_fs (fs empty_project).
Proof.
  apply wf_fs_insert; [apply wf_fs_insert; [apply wf_fs_drive | done | done] | |].
  - apply lookup_insert_eq.
  - done.
Qed.

(** ** setup.py on concrete file systems *)

(** On a fresh project root nothing of the layout is in the way. *)
Lemma layout_free_fresh (m : gmap Path Node) :
  wf_fs m → m !! setup.PROJECT_ROOT = None →
  layout_free (ensure_dirs setup.PROJECT_ROOT m).
Proof.
  intros Hwf Hroot.
  assert (H1 : ∀ n, ensure_dirs setup.PROJECT_ROOT m !! (setup.PROJECT_ROOT / n)%path = None).
  { intros n. rewrite lookup_ensure_dirs_deeper by (simpl; lia).
    by apply wf_fs_absent. }
  assert (H2 : ∀ n n', ensure_dirs setup.PROJECT_ROOT m
                         !! (setup.PROJECT_ROOT / n / n')%path = None).
  { intros n n'. rewrite lookup_ensure_dirs_deeper by (simpl; lia).
    apply wf_fs_absent; [done |]. by apply wf_fs_absent. }
  unfold layout_free, PROJECT_LAYOUT. cbv zeta.
  repeat (apply Forall_cons; split;
          [unfold accepts; cbn [fst snd];
           first [left; apply H1 | by rewrite H1 | by rewrite H2] |]).
  apply Forall_nil_2.
Qed.

(** On a drive with nothing on it the script returns, and the file system
    it leaves is the drive with [D:\Projects], the project root and the
    layout. *)
Lemma fresh_drive_run_fs :
  ∃ s', setup.create_project_structure fresh_drive = (Returned tt, s') ∧
        fs s' = insert_all (ensure_dirs setup.PROJECT_ROOT (fs fresh_drive))
                           PROJECT_LAYOUT.
Proof.
  destruct (create_project_structure_from_root fresh_drive
              (ensure_dirs setup.PROJECT_ROOT (fs fresh_drive))) as [out Hrun].
  - intros out. rewrite Path_mkdir_parents_run; [done | apply wf_fs_drive |].
    simpl. split; [by left |]. split; [by left | done].
  - apply lookup_ensure_dirs_self.
  - apply layout_free_fresh; [apply wf_fs_drive | done].
  - eexists. split; [exact Hrun | done].
Qed.

Lemma fresh_drive_run :
  ∃ s', setup.create_project_structure fresh_drive = (Returned tt, s').
Proof. destruct fresh_drive_run_fs as (s' & Hrun & _). by exists s'. Qed.

(** Where [D:\Projects] is a regular file, the script prints its first line
    and its [mkdir] of the project root raises: [os.mkdir] does not find the
    parent, pathlib turns to the parent, which exists and is no directory. *)
Lemma projects_is_a_file_run :
  ∃ s', setup.create_project_structure projects_is_a_file
          = (Raised FileExistsError, s') ∧
        fs s' = fs projects_is_a_file.
Proof.
  eexists. split.
  - unfold setup.create_project_structure.
    erewrite (bind_returned (print _)) by reflexivity. cbv beta.
    erewrite bind_raised; [reflexivity |]. reflexivity.
  - reflexivity.
Qed.

(** ** setup.py: the exchange catalog *)

Lemma catalog_keys (e : json) :
  e ∈ catalog → ∃ items, e = JDict items ∧ items.*1 = ENTRY_FIELDS.
Proof.
  intros He. unfold catalog in He. cbn in He.
  repeat (apply elem_of_cons in He as [-> | He]; [by eexists |]).
  by apply elem_of_nil in He.
Qed.

(** C1: every entry of the catalog that [create_project_structure] stores in
    [data/exchanges.json] (the list under the one top-level key ["exchanges"]
    of [EXCHANGE_DATA], given to [json.dump] as it is) is a dict with exactly
    the six fields id, name, lat, lon, city and type: none is missing, none
    is there twice, and there is no other. *)
Theorem catalog_entries_have_six_fields (s s' : State) :
  setup.create_project_structure s = (Returned tt, s') →
  fs s' !! (setup.PROJECT_ROOT / "data" / "exchanges.json")%path
    = Some (File (JsonDump setup.EXCHANGE_DATA 4)) ∧
  dict_keys setup.EXCHANGE_DATA = ["exchanges"] ∧
  dict_get "exchanges" setup.EXCHANGE_DATA = Some (JList catalog) ∧
  ∀ e, e ∈ catalog →
    ∃ items, e = JDict items ∧ NoDup items.*1 ∧
             ∀ k, k ∈ items.*1 ↔ k ∈ ENTRY_FIELDS.
Proof.
  intros Hrun.
  apply create_project_structure_returned in Hrun as (m & _ & -> & _).
  split; [| split; [done | split; [done |]]].
  - apply lookup_insert_all_in; [apply layout_paths_NoDup |].
    unfold PROJECT_LAYOUT. cbv zeta. do 11 apply list_elem_of_further.
    apply list_elem_of_here.
  - intros e He. apply catalog_keys in He as (items & -> & Hk).
    exists items. rewrite Hk. split; [done | split; [| done]].
    apply (bool_decide_unpack _). vm_compute. exact I.
Qed.

Lemma catalog_entries_have_six_fields_witness :
  ∃ s',
    setup.create_project_structure fresh_drive = (Returned tt, s') ∧
    fs s' !! (setup.PROJECT_ROOT / "data" / "exchanges.json")%path
      = Some (File (JsonDump setup.EXCHANGE_DATA 4)) ∧
    ∃ e, catalog !! 0 = Some e ∧ dict_keys e = ENTRY_FIELDS.
Proof.
  destruct fresh_drive_run as [s' Hrun]. exists s'.
  split; [exact Hrun |].
  destruct (catalog_entries_have_six_fields fresh_drive s' Hrun)
    as (Hfile & _ & _ & _).
  split; [exact Hfile |].
  eexists. split; reflexivity.
Defined.

(** C2: in the catalog the id is unique: two entries at different places of
    the list have ids, and the ids differ. *)
Theorem catalog_ids_unique (i j : nat) (e1 e2 : json) :
  catalog !! i = Some e1 → catalog !! j = Some e2 → i ≠ j →
  ∃ id1 id2, str_field "id" e1 = Some id1 ∧ str_field "id" e2 = Some id2 ∧
             id1 ≠ id2.
Proof.
  intros H1 H2 Hij.
  assert (Hids : Forall2 (λ e id, str_field "id" e = Some id) catalog
                   (omap (str_field "id") catalog)).
  { unfold catalog. cbn. repeat (apply Forall2_cons; split; [reflexivity |]).
    apply Forall2_nil_2. }
  assert (Hnd : NoDup (omap (str_field "id") catalog))
    by (apply (bool_decide_unpack _); vm_compute; exact I).
  destruct (Forall2_lookup_l _ _ _ _ _ Hids H1) as (id1 & Hi1 & He1).
  destruct (Forall2_lookup_l _ _ _ _ _ Hids H2) as (id2 & Hi2 & He2).
  exists id1, id2. repeat split; [done | done |].
  intros ->. apply Hij. by apply (NoDup_lookup _ i j id2 Hnd).
Qed.

Lemma catalog_ids_unique_witness :
  ∃ id1 id2, (catalog !! 16 ≫= str_field "id") = Some id1 ∧
             (catalog !! 17 ≫= str_field "id") = Some id2 ∧ id1 ≠ id2.
Proof.
  destruct (catalog_ids_unique 16 17
              (default (JList []) (catalog !! 16))
              (default (JList []) (catalog !! 17)))
    as (id1 & id2 & H1 & H2 & Hne); [reflexivity | reflexivity | lia |].
  exists id1, id2. repeat split; [exact H1 | exact H2 | exact Hne].
Defined.

(** C3: the type of every entry of the catalog is equity, derivatives or
    crypto. *)
Theorem catalog_types_are_venue_types (e : json) :
  e ∈ catalog → ∃ t, str_field "type" e = Some t ∧ t ∈ VENUE_TYPES.
Proof.
  intros He. unfold catalog in He. cbn in He.
  repeat (apply elem_of_cons in He as [-> | He];
          [eexists; split; [reflexivity |];
           apply (bool_decide_unpack _); vm_compute; exact I |]).
  by apply elem_of_nil in He.
Qed.

Lemma catalog_types_are_venue_types_witness :
  ∃ e t, catalog !! 2 = Some e ∧ str_field "type" e = Some t ∧ t ∈ VENUE_TYPES.
Proof.
  destruct (catalog_types_are_venue_types (default (JList []) (catalog !! 2)))
    as (t & Ht & Hv).
  - apply (list_elem_of_lookup_2 _ 2). reflexivity.
  - eexists _, t. split; [reflexivity |]. split; [exact Ht | exact Hv].
Defined.

(** C8: every entry of the catalog has decimal-degree coordinates that are a
    place on the globe: lat in [-90, 90] and lon in [-180, 180]. *)
Theorem catalog_coordinates_valid (e : json) :
  e ∈ catalog →
  ∃ lat lon, float_field "lat" e = Some lat ∧ float_field "lon" e = Some lon ∧
             valid_lat lat = true ∧ valid_lon lon = true.
Proof.
  intros He. unfold catalog in He. cbn in He.
  repeat (apply elem_of_cons in He as [-> | He];
          [eexists _, _; repeat split; reflexivity |]).
  by apply elem_of_nil in He.
Qed.

Lemma catalog_coordinates_valid_witness :
  ∃ e lat lon, catalog !! 11 = Some e ∧
    float_field "lat" e = Some lat ∧ float_field "lon" e = Some lon ∧
    valid_lat lat = true ∧ valid_lon lon = true.
Proof.
  destruct (catalog_coordinates_valid (default (JList []) (catalog !! 11)))
    as (lat & lon & Hlat & Hlon & Hvlat & Hvlon).
  - apply (list_elem_of_lookup_2 _ 11). reflexivity.
  - eexists _, lat, lon. split; [reflexivity |].
    repeat split; [exact Hlat | exact Hlon | exact Hvlat | exact Hvlon].
Defined.

(** C9: the catalog has entries with different ids at the very same
    coordinates (COINBASE and KRAKEN, BINANCE and HUOBI, HKEX and BYBIT), so
    a distance between two different exchanges of the seed data can be
    computed on equal coordinates. *)
Theorem catalog_has_coincident_exchanges :
  (∃ e1 e2, e1 ∈ catalog ∧ e2 ∈ catalog ∧
            str_field "id" e1 ≠ str_field "id" e2 ∧
            float_field "lat" e1 = float_field "lat" e2 ∧
            float_field "lon" e1 = float_field "lon" e2 ∧
            coincident e1 e2 = true) ∧
  Forall (λ '(id1, id2),
            id1 ≠ id2 ∧
            ∃ e1 e2, find_exchange id1 = Some e1 ∧ find_exchange id2 = Some e2 ∧
                     coincident e1 e2 = true)
         [("COINBASE", "KRAKEN"); ("BINANCE", "HUOBI"); ("HKEX", "BYBIT")].
Proof.
  split.
  - exists (default (JList []) (catalog !! 16)), (default (JList []) (catalog !! 17)).
    split; [apply (list_elem_of_lookup_2 _ 16); reflexivity |].
    split; [apply (list_elem_of_lookup_2 _ 17); reflexivity |].
    split; [by vm_compute |]. repeat split; reflexivity.
  - repeat (apply Forall_cons; split;
            [split; [done | eexists _, _; repeat split; reflexivity] |]).
    apply Forall_nil_2.
Qed.

(** ** setup.py: the file system *)

(** Where the layout is stored already, nothing of it is in the way. *)
Lemma layout_free_stored (m : gmap Path Node) :
  layout_free (insert_all m PROJECT_LAYOUT).
Proof.
  unfold layout_free. apply Forall_forall. intros [p n] Hin.
  unfold accepts. cbn [fst snd].
  rewrite (lookup_insert_all_in _ _ p n) by (apply layout_paths_NoDup || done).
  destruct n; [by right | done].
Qed.

(** [Path.mkdir] on a regular file raises [FileExistsError], with
    [exist_ok=True] too. *)
Lemma Path_mkdir_on_file (p : Path) (parents exist_ok : bool) (c : Content) (s : State) :
  fs s !! p = Some (File c) →
  Path_mkdir p parents exist_ok s = (Raised FileExistsError, s).
Proof.
  intros Hp. destruct p as [d | q n]; simpl; unfold try_except;
    rewrite (os_mkdir_exists _ (File c)) by done;
    unfold raise, mbind, Py_bind, bind, Path_is_dir; rewrite Hp;
    by destruct exist_ok.
Qed.

(** [Path.mkdir(parents=True)] below a regular file: [os.mkdir] does not find
    the parent, pathlib turns to the parent, which exists and is no
    directory. *)
Lemma Path_mkdir_below_file (p : Path) (name : string) (exist_ok : bool)
    (c : Content) (s : State) :
  fs s !! p = Some (File c) → fs s !! (p / name)%path = None →
  Path_mkdir (p / name) true exist_ok s = (Raised FileExistsError, s).
Proof.
  intros Hp Hn. simpl. unfold try_except, os_mkdir. rewrite Hn, Hp. simpl.
  by rewrite (bind_raised _ _ _ _ _ (Path_mkdir_on_file p true true c s Hp)).
Qed.

(** C4 as amended, on a well-formed file system where the project root is
    absent.  Where the drive is there and [D:\Projects] is absent or a
    directory, [create_project_structure] returns; it has made the project
    root (and [D:\Projects] if it was missing), the eight directories and the
    eight files of the layout, each file with the content of its template,
    and every other path is as it was; the working directory is then the
    project root, and nothing was requested over the network.  Where
    [D:\Projects] is a regular file, it raises [FileExistsError] and has
    changed neither the file system nor the working directory. *)
Theorem create_project_structure_layout (s : State) :
  wf_fs (fs s) →
  fs s !! setup.PROJECT_ROOT = None →
  (fs s !! Anchor "D:\" = Some Dir →
   fs s !! (Anchor "D:\" / "Projects")%path = None ∨
     fs s !! (Anchor "D:\" / "Projects")%path = Some Dir →
   ∃ s', setup.create_project_structure s = (Returned tt, s') ∧
     (∀ p n, (p, n) ∈ PROJECT_LAYOUT → fs s' !! p = Some n) ∧
     fs s' !! setup.PROJECT_ROOT = Some Dir ∧
     fs s' !! (Anchor "D:\" / "Projects")%path = Some Dir ∧
     (∀ p, p ∉ PROJECT_LAYOUT.*1 → p ≠ setup.PROJECT_ROOT →
           p ≠ (Anchor "D:\" / "Projects")%path → fs s' !! p = fs s !! p) ∧
     cwd s' = setup.PROJECT_ROOT ∧ requests s' = requests s) ∧
  (∀ c, fs s !! (Anchor "D:\" / "Projects")%path = Some (File c) →
   ∃ s', setup.create_project_structure s = (Raised FileExistsError, s') ∧
     fs s' = fs s ∧ cwd s' = cwd s ∧ requests s' = requests s).
Proof.
  intros Hwf Hroot. split.
  - intros Hdrive Hprojects.
    assert (Hcan : can_make_dirs setup.PROJECT_ROOT (fs s)).
    { simpl. rewrite Hdrive. unfold setup.PROJECT_ROOT in Hroot. eauto. }
    destruct (create_project_structure_from_root s
                (ensure_dirs setup.PROJECT_ROOT (fs s))) as [out Hrun].
    + intros out. by rewrite Path_mkdir_parents_run.
    + apply lookup_ensure_dirs_self.
    + by apply layout_free_fresh.
    + eexists. split; [exact Hrun |]. cbn [fs cwd requests].
      split; [| split; [| split; [| split; [| done]]]].
      * intros p n Hin. by apply lookup_insert_all_in; [apply layout_paths_NoDup |].
      * rewrite lookup_insert_all_notin by apply root_not_in_layout.
        apply lookup_ensure_dirs_self.
      * rewrite lookup_insert_all_notin
          by (apply (bool_decide_unpack _); vm_compute; exact I).
        simpl. rewrite lookup_insert_ne by done. apply lookup_insert_eq.
      * intros p Hp Hr Hpr. rewrite lookup_insert_all_notin by done.
        unfold setup.PROJECT_ROOT in *. simpl.
        rewrite !lookup_insert_ne by congruence.
        destruct (decide (p = Anchor "D:\")) as [-> | Hd].
        -- by rewrite lookup_insert_eq.
        -- by apply lookup_insert_ne.
  - intros c Hfile. eexists. split.
    + unfold setup.create_project_structure.
      erewrite (bind_returned (print _)) by reflexivity. cbv beta.
      erewrite bind_raised; [reflexivity |].
      by apply (Path_mkdir_below_file _ _ _ c).
    + done.
Qed.

Lemma create_project_structure_layout_witness :
  (∃ s', setup.create_project_structure fresh_drive = (Returned tt, s') ∧
     (∀ p n, (p, n) ∈ PROJECT_LAYOUT → fs s' !! p = Some n) ∧
     fs s' !! (Anchor "D:\")%path = Some Dir ∧
     cwd s' = setup.PROJECT_ROOT) ∧
  (∃ s', setup.create_project_structure projects_is_a_file
           = (Raised FileExistsError, s') ∧
     fs s' = fs projects_is_a_file).
Proof.
  split.
  - destruct (create_project_structure_layout fresh_drive) as [Hok _].
    + apply wf_fs_drive.
    + reflexivity.
    + destruct Hok as (s' & Hrun & Hlayout & _ & _ & Hframe & Hcwd & _).
      * reflexivity.
      * left. reflexivity.
      * exists s'. split; [exact Hrun |]. split; [exact Hlayout |].
        split; [| exact Hcwd].
        rewrite Hframe; [reflexivity | | |];
          apply (bool_decide_unpack _); vm_compute; exact I.
  - destruct (create_project_structure_layout projects_is_a_file) as [_ Hfail].
    + apply wf_fs_insert; [apply wf_fs_drive | reflexivity | reflexivity].
    + reflexivity.
    + destruct (Hfail (Text "notes")) as (s' & Hrun & Hfs & _); [reflexivity |].
      exists s'. split; [exact Hrun | exact Hfs].
Defined.

(** C4 as stated fails.  On a drive with nothing on it the script returns,
    but it has made [D:\Projects] too, a directory that is neither the
    project root nor in the layout; and where [D:\Projects] is a regular
    file the project root is absent and the script raises, having made
    nothing. *)
Lemma create_project_structure_not_exact :
  (wf_fs (fs fresh_drive) ∧ fs fresh_drive !! setup.PROJECT_ROOT = None ∧
   ¬ creates_exactly_layout fresh_drive) ∧
  (wf_fs (fs projects_is_a_file) ∧
   fs projects_is_a_file !! setup.PROJECT_ROOT = None ∧
   ¬ creates_exactly_layout projects_is_a_file ∧
   ∃ s', setup.create_project_structure projects_is_a_file
           = (Raised FileExistsError, s') ∧
         fs s' = fs projects_is_a_file).
Proof.
  split; [split; [apply wf_fs_fresh_drive | split; [reflexivity |]]
         | split; [apply wf_fs_projects_is_a_file | split; [reflexivity | split]]].
  - intros (s' & Hrun & _ & Hframe).
    assert (Hp : fs s' !! (Anchor "D:\" / "Projects")%path
                 = fs fresh_drive !! (Anchor "D:\" / "Projects")%path).
    { apply Hframe; apply (bool_decide_unpack _); vm_compute; exact I. }
    destruct fresh_drive_run_fs as (s2 & Hrun2 & Hfs).
    rewrite Hrun in Hrun2. injection Hrun2 as <-.
    rewrite Hfs, lookup_insert_all_notin in Hp
      by (apply (bool_decide_unpack _); vm_compute; exact I).
    simpl in Hp. rewrite lookup_insert_ne, lookup_insert_eq in Hp by done.
    discriminate Hp.
  - intros (s' & Hrun & _).
    destruct projects_is_a_file_run as (s2 & Hrun2 & _).
    rewrite Hrun in Hrun2. discriminate Hrun2.
  - apply projects_is_a_file_run.
Qed.

(** C10: [create_project_structure] is idempotent on the file system: after
    a run that returned, a second run returns too and leaves the file system
    as the first one left it. *)
Theorem create_project_structure_idempotent (s s1 : State) :
  setup.create_project_structure s = (Returned tt, s1) →
  ∃ s2, setup.create_project_structure s1 = (Returned tt, s2) ∧
        fs s2 = fs s1.
Proof.
  intros Hrun.
  apply create_project_structure_returned in Hrun as (m & Hroot & Hfs & _).
  assert (Hroot1 : fs s1 !! setup.PROJECT_ROOT = Some Dir).
  { rewrite Hfs, lookup_insert_all_notin by apply root_not_in_layout. done. }
  destruct (create_project_structure_from_root s1 (fs s1)) as [out Hrun2].
  - intros out. rewrite Path_mkdir_exists by done. by rewrite with_fs_id.
  - done.
  - rewrite Hfs. apply layout_free_stored.
  - eexists. split; [exact Hrun2 |]. cbn [fs].
    rewrite Hfs. apply insert_all_idempotent, layout_paths_NoDup.
Qed.

Lemma create_project_structure_idempotent_witness :
  ∃ s1 s2,
    setup.create_project_structure fresh_drive = (Returned tt, s1) ∧
    setup.create_project_structure s1 = (Returned tt, s2) ∧
    fs s2 = fs s1.
Proof.
  destruct fresh_drive_run as [s1 Hrun]. exists s1.
  destruct (create_project_structure_idempotent fresh_drive s1 Hrun)
    as (s2 & Hrun2 & Hfs).
  exists s2. split; [exact Hrun |]. split; [exact Hrun2 | exact Hfs].
Defined.

(** ** download_glad.py *)

Lemma only_creates_refl (dirs : list Path) (s : State) : only_creates dirs s s.
Proof. repeat split. intros p. by left. Qed.

Lemma only_creates_trans (dirs : list Path) (s1 s2 s3 : State) :
  only_creates dirs s1 s2 → only_creates dirs s2 s3 → only_creates dirs s1 s3.
Proof.
  intros (Hr1 & Hc1 & H1) (Hr2 & Hc2 & H2).
  split; [congruence | split; [congruence |]]. intros p.
  destruct (H1 p) as [E1 | (Hin & Hn & Hd)], (H2 p) as [E2 | (Hin' & Hn' & Hd')].
  - left. congruence.
  - right. rewrite <- E1. done.
  - right. rewrite E2. done.
  - congruence.
Qed.

Lemma confined_bind {A B} (dirs : list Path) (m : Py A) (k : A → Py B) :
  confined dirs m → (∀ a, confined dirs (k a)) → confined dirs (m ≫= k).
Proof.
  intros Hm Hk s r s'. unfold mbind, Py_bind, bind.
  destruct (m s) as [[a | e] s1] eqn:E; intros H.
  - eapply only_creates_trans; [by eapply Hm | by eapply Hk].
  - injection H as <- <-. by eapply Hm.
Qed.

Lemma confined_print (dirs : list Path) (line : string) :
  confined dirs (print line).
Proof. intros s r s' [= <- <-]. repeat split. intros p. by left. Qed.

Lemma confined_mkdir (dirs : list Path) (p : Path) (exist_ok : bool) :
  p ∈ dirs → confined dirs (Path_mkdir p false exist_ok).
Proof.
  intros Hin s r s' H. rewrite Path_mkdir_here in H.
  apply mkdir_here_effect in H as [-> | [Hn ->]]; [apply only_creates_refl |].
  repeat split. intros q. cbn [fs with_fs].
  destruct (decide (q = p)) as [-> | Hq].
  - right. by rewrite lookup_insert_eq.
  - left. by apply lookup_insert_ne.
Qed.

(** A directory of [GLAD_DIRS], by its place in the list. *)
Ltac glad_dir :=
  unfold GLAD_DIRS; cbv zeta;
  repeat first [ apply list_elem_of_here | apply list_elem_of_further ].

Lemma download_glad_confined : confined GLAD_DIRS download_glad.download_glad.
Proof.
  unfold download_glad.download_glad. cbv zeta.
  repeat lazymatch goal with
    | |- confined _ (mbind _ _) => apply confined_bind; [| intros _]
    | |- confined _ (print _) => apply confined_print
    | |- confined _ (Path_mkdir _ _ _) => apply confined_mkdir; glad_dir
    end.
Qed.

(** Where the project root is a directory and none of the six paths is a
    regular file, [download_glad] returns, the six directories are there and
    the instructions are printed. *)
Lemma download_glad_run (s : State) :
  fs s !! download_glad.PROJECT_ROOT = Some Dir →
  Forall (λ p, fs s !! p = None ∨ fs s !! p = Some Dir) GLAD_DIRS →
  ∃ s', download_glad.download_glad s = (Returned tt, s') ∧
        Forall (λ p, fs s' !! p = Some Dir) GLAD_DIRS ∧
        Forall (λ line, line ∈ stdout s') GLAD_INSTRUCTIONS.
Proof.
  intros Hroot Hdirs.
  unfold GLAD_DIRS in Hdirs. cbv zeta in Hdirs.
  repeat (apply Forall_cons in Hdirs as [? Hdirs]). clear Hdirs.
  eexists. split.
  - unfold download_glad.download_glad. cbv zeta.
    step_print.
    do 6 step Path_mkdir_run ltac:(layout_step).
    do 14 step_print.
    reflexivity.
  - cbn [fs stdout with_stdout]. split.
    + unfold GLAD_DIRS. cbv zeta.
      repeat (apply Forall_cons; split; [peel_inserts; done |]).
      apply Forall_nil_2.
    + unfold GLAD_INSTRUCTIONS.
      repeat (apply Forall_cons; split;
              [repeat first [ apply elem_of_app; right; apply list_elem_of_here
                            | apply elem_of_app; left ] |]).
      apply Forall_nil_2.
Qed.

Lemma empty_project_glad_dirs_free :
  Forall (λ p, fs empty_project !! p = None ∨ fs empty_project !! p = Some Dir)
         GLAD_DIRS.
Proof.
  unfold GLAD_DIRS. cbv zeta.
  repeat (apply Forall_cons; split; [left; reflexivity |]). apply Forall_nil_2.
Qed.

Lemma empty_project_glad_run :
  ∃ s', download_glad.download_glad empty_project = (Returned tt, s').
Proof.
  destruct (download_glad_run empty_project) as (s' & Hrun & _).
  - reflexivity.
  - apply empty_project_glad_dirs_free.
  - by exists s'.
Qed.

(** C5: [download_glad] fetches nothing and, on the file system, does no
    more than make its six directories.  However a run ends: no request is
    made over the network; every path outside the six is as it was; each of
    the six is as it was, or was absent and is now a directory; and on a
    well-formed file system a directory the run made holds nothing but
    others it made.  Where the project root is a directory and none of the
    six paths is a regular file, the run returns, the six directories are
    there, and the instructions (the generator's URL and the copy steps) are
    on the standard output. *)
Theorem download_glad_only_makes_directories (s s' : State) (r : Outcome unit) :
  download_glad.download_glad s = (r, s') →
  requests s' = requests s ∧ cwd s' = cwd s ∧
  (∀ p, p ∉ GLAD_DIRS → fs s' !! p = fs s !! p) ∧
  (∀ p, p ∈ GLAD_DIRS →
        fs s' !! p = fs s !! p ∨ (fs s !! p = None ∧ fs s' !! p = Some Dir)) ∧
  (wf_fs (fs s) → ∀ p name, p ∈ GLAD_DIRS → fs s !! p = None →
        (p / name)%path ∉ GLAD_DIRS → fs s' !! (p / name)%path = None) ∧
  (fs s !! download_glad.PROJECT_ROOT = Some Dir →
   Forall (λ p, fs s !! p = None ∨ fs s !! p = Some Dir) GLAD_DIRS →
   r = Returned tt ∧
   Forall (λ p, fs s' !! p = Some Dir) GLAD_DIRS ∧
   Forall (λ line, line ∈ stdout s') GLAD_INSTRUCTIONS).
Proof.
  intros Hrun.
  destruct (download_glad_confined s r s' Hrun) as (Hreq & Hcwd & Hfs).
  split; [done | split; [done |]].
  assert (Hout : ∀ p, p ∉ GLAD_DIRS → fs s' !! p = fs s !! p).
  { intros p Hp. by destruct (Hfs p) as [E | (Hin & _)]. }
  split; [done | split; [| split]].
  - intros p _. destruct (Hfs p) as [E | (_ & Hn & Hd)]; [by left | by right].
  - intros Hwf p name _ Hn Hout'. rewrite Hout by done. by apply wf_fs_absent.
  - intros Hroot Hdirs.
    destruct (download_glad_run s Hroot Hdirs) as (s2 & Hrun2 & Hd & Hl).
    rewrite Hrun in Hrun2. by injection Hrun2 as -> ->.
Qed.

Lemma download_glad_only_makes_directories_witness :
  ∃ s', download_glad.download_glad empty_project = (Returned tt, s') ∧
        requests s' = [] ∧
        Forall (λ p, fs s' !! p = Some Dir) GLAD_DIRS ∧
        fs s' !! (download_glad.PROJECT_ROOT / "external" / "glad.zip")%path = None.
Proof.
  destruct empty_project_glad_run as [s' Hrun]. exists s'.
  destruct (download_glad_only_makes_directories empty_project _ _ Hrun)
    as (Hreq & _ & _ & _ & Hempty & Hok).
  split; [exact Hrun |]. split; [exact Hreq |]. split.
  - apply Hok; [reflexivity | apply empty_project_glad_dirs_free].
  - apply Hempty; [apply wf_fs_empty_project | | reflexivity |].
    + unfold GLAD_DIRS. cbv zeta. apply list_elem_of_here.
    + apply (bool_decide_unpack _). vm_compute. exact I.
Defined.

(** * Further properties of the scripts *)

(** ** What the library calls may do, however they end *)

Lemma only_grows_refl (dirs files : list Path) (s : State) :
  only_grows dirs files s s.
Proof. split; [done |]. intros p. by left. Qed.

Lemma only_grows_trans (dirs files : list Path) (s1 s2 s3 : State) :
  only_grows dirs files s1 s2 → only_grows dirs files s2 s3 →
  only_grows dirs files s1 s3.
Proof.
  intros [Hr1 H1] [Hr2 H2]. split; [congruence |]. intros p.
  destruct (H1 p) as [E1 | [(Hin & Hn & Hd) | (Hin & Hn & c & Hc)]],
           (H2 p) as [E2 | [(Hin' & Hn' & Hd') | (Hin' & Hn' & c' & Hc')]].
  - left. congruence.
  - right. left. rewrite <- E1. done.
  - right. right. rewrite <- E1. eauto.
  - right. left. rewrite E2. done.
  - congruence.
  - congruence.
  - right. right. rewrite E2. eauto.
  - congruence.
  - right. right. eauto.
Qed.

Lemma only_grows_with_fs (dirs files : list Path) (s : State) (p : Path) (n : Node) :
  (n = Dir ∧ p ∈ dirs ∧ fs s !! p = None) ∨
  (n ≠ Dir ∧ p ∈ files ∧ fs s !! p ≠ Some Dir) →
  only_grows dirs files s (with_fs (<[p := n]> (fs s)) s).
Proof.
  intros H. split; [done |]. intros q. cbn [fs with_fs].
  destruct (decide (q = p)) as [-> | Hq].
  - rewrite lookup_insert_eq. right.
    destruct H as [(-> & Hin & Hn) | (Hd & Hin & Hn)]; [by left | right].
    destruct n; [done | eauto].
  - left. by apply lookup_insert_ne.
Qed.

Lemma only_grows_same_fs (dirs files : list Path) (s s' : State) :
  fs s' = fs s → requests s' = requests s → only_grows dirs files s s'.
Proof. intros Hfs Hr. split; [done |]. intros p. left. by rewrite Hfs. Qed.

Lemma grows_bind {A B} (dirs files : list Path) (m : Py A) (k : A → Py B) :
  grows_within dirs files m → (∀ a, grows_within dirs files (k a)) →
  grows_within dirs files (m ≫= k).
Proof.
  intros Hm Hk s r s'. unfold mbind, Py_bind, bind.
  destruct (m s) as [[a | e] s1] eqn:E; intros H.
  - eapply only_grows_trans; [by eapply Hm | by eapply Hk].
  - injection H as <- <-. by eapply Hm.
Qed.

Lemma grows_ret {A} (dirs files : list Path) (a : A) :
  grows_within dirs files (ret a).
Proof. intros s r s' [= <- <-]. apply only_grows_refl. Qed.

Lemma grows_print (dirs files : list Path) (line : string) :
  grows_within dirs files (print line).
Proof. intros s r s' [= <- <-]. by apply only_grows_same_fs. Qed.

Lemma grows_os_chdir (dirs files : list Path) (p : Path) :
  grows_within dirs files (os_chdir p).
Proof.
  intros s r s'. unfold os_chdir.
  destruct (fs s !! p) as [[] |]; intros [= <- <-];
    by apply only_grows_same_fs.
Qed.

Lemma grows_mkdir_here (dirs files : list Path) (p : Path) (exist_ok : bool) :
  p ∈ dirs → grows_within dirs files (mkdir_here p exist_ok).
Proof.
  intros Hin s r s' H.
  apply mkdir_here_effect in H as [-> | [Hn ->]]; [apply only_grows_refl |].
  apply only_grows_with_fs. by left.
Qed.

(** What [open] for writing does, however it ends. *)
Lemma open_w_effect (p : Path) (c : Content) (s s' : State) (r : Outcome unit) :
  open_w p c s = (r, s') →
  s' = s ∨ (fs s !! p ≠ Some Dir ∧ s' = with_fs (<[p := File c]> (fs s)) s).
Proof.
  unfold open_w. destruct p as [d | q n].
  - destruct (fs s !! Anchor d) as [[] |]; intros [= <- <-]; by left.
  - destruct (fs s !! (q / n)%path) as [[] |] eqn:Hp;
      [intros [= <- <-]; by left | |];
      (destruct (fs s !! q) as [[] |]; intros [= <- <-]; [right | by left | by left]);
      done.
Qed.

Lemma grows_open_w (dirs files : list Path) (p : Path) (c : Content) :
  p ∈ files → grows_within dirs files (open_w p c).
Proof.
  intros Hin s r s' H.
  apply open_w_effect in H as [-> | [Hn ->]]; [apply only_grows_refl |].
  apply only_grows_with_fs. by right.
Qed.

(** The handler of [Path.mkdir] for an [OSError] that is no
    [FileNotFoundError] changes nothing. *)
Lemma exists_handler_effect (p : Path) (exist_ok : bool) (e : OSError)
    (s s' : State) (r : Outcome unit) :
  (is_dir ← Path_is_dir p;
   if negb exist_ok || negb is_dir then raise e else ret tt) s = (r, s') →
  s' = s.
Proof.
  unfold raise, ret, mbind, Py_bind, bind, Path_is_dir.
  destruct (negb exist_ok || negb _); by intros [= <- <-].
Qed.

Lemma grows_Path_mkdir (dirs files : list Path) (p : Path) (parents exist_ok : bool) :
  chain_in dirs p → grows_within dirs files (Path_mkdir p parents exist_ok).
Proof.
  revert parents exist_ok.
  induction p as [d | q IH n]; intros parents exist_ok Hchain s r s'.
  - simpl. unfold try_except, os_mkdir.
    destruct (fs s !! Anchor d) as [nd |]; [| intros [= <- <-]; apply only_grows_refl].
    intros H. apply exists_handler_effect in H as ->. apply only_grows_refl.
  - destruct Hchain as [Hin Hchain]. simpl. unfold try_except.
    destruct (os_mkdir (q / n) s) as [[[] | e] s1] eqn:E.
    + apply os_mkdir_returned in E as [Hn ->]. intros [= <- <-].
      apply only_grows_with_fs. by left.
    + apply os_mkdir_raised in E as ->. destruct e.
      * destruct parents; simpl; [| intros [= <- <-]; apply only_grows_refl].
        apply grows_bind; [by apply IH | intros _; by apply grows_mkdir_here].
      * intros H. apply exists_handler_effect in H as ->. apply only_grows_refl.
      * intros H. apply exists_handler_effect in H as ->. apply only_grows_refl.
      * intros H. apply exists_handler_effect in H as ->. apply only_grows_refl.
Qed.

(** ** setup.py, however a run ends *)

(** Membership in a list of closed paths, and the like, by evaluation. *)
Ltac by_evaluation := apply (bool_decide_unpack _); vm_compute; exact I.

Lemma create_project_structure_grows :
  grows_within SETUP_DIRS SETUP_FILES setup.create_project_structure.
Proof.
  unfold setup.create_project_structure, setup.DIRECTORIES, setup.json_dump,
    setup.write.
  cbn [for_each]. cbv beta zeta.
  repeat lazymatch goal with
    | |- grows_within _ _ (mbind _ _) => apply grows_bind; [| intros _]
    | |- grows_within _ _ (print _) => apply grows_print
    | |- grows_within _ _ (ret _) => apply grows_ret
    | |- grows_within _ _ (os_chdir _) => apply grows_os_chdir
    | |- grows_within _ _ (Path_mkdir _ _ _) =>
        apply grows_Path_mkdir; simpl; repeat split; by_evaluation
    | |- grows_within _ _ (open_w _ _) => apply grows_open_w; by_evaluation
    end.
Qed.

Lemma SETUP_DIRS_listed :
  Forall (λ p, p = setup.PROJECT_ROOT ∨ p = (Anchor "D:\" / "Projects")%path ∨
               p ∈ PROJECT_LAYOUT.*1) SETUP_DIRS.
Proof.
  unfold SETUP_DIRS, PROJECT_LAYOUT. cbv zeta. simpl.
  apply Forall_cons; split; [by left |].
  apply Forall_cons; split; [by right; left |].
  repeat (apply Forall_cons; split; [right; right; by_evaluation |]).
  apply Forall_nil_2.
Qed.

Lemma SETUP_FILES_listed : Forall (λ p, p ∈ PROJECT_LAYOUT.*1) SETUP_FILES.
Proof.
  unfold SETUP_FILES, PROJECT_LAYOUT. cbv zeta. simpl.
  repeat (apply Forall_cons; split; [by_evaluation |]).
  apply Forall_nil_2.
Qed.

(** X2: whatever the file system and however the run ends,
    [create_project_structure] requests nothing over the network; it leaves
    every path but the project root, [D:\Projects] and the sixteen of the
    layout as it was; it removes nothing (a directory stays a directory, a
    regular file a regular file); and a regular file that is not at one of
    the eight file paths of the layout keeps its content. *)
Theorem create_project_structure_frame (s s' : State) (r : Outcome unit) :
  setup.create_project_structure s = (r, s') →
  requests s' = requests s ∧
  (∀ p, p ∉ PROJECT_LAYOUT.*1 → p ≠ setup.PROJECT_ROOT →
        p ≠ (Anchor "D:\" / "Projects")%path → fs s' !! p = fs s !! p) ∧
  (∀ p, fs s !! p = Some Dir → fs s' !! p = Some Dir) ∧
  (∀ p c, fs s !! p = Some (File c) → ∃ c', fs s' !! p = Some (File c')) ∧
  (∀ p c, fs s !! p = Some (File c) → p ∉ SETUP_FILES →
          fs s' !! p = Some (File c)).
Proof.
  intros Hrun.
  destruct (create_project_structure_grows s r s' Hrun) as [Hreq Hfs].
  pose proof (proj1 (Forall_forall _ _) SETUP_DIRS_listed) as Hdirs.
  pose proof (proj1 (Forall_forall _ _) SETUP_FILES_listed) as Hfiles.
  split; [done |]. repeat split.
  - intros p Hp Hroot Hprojects.
    destruct (Hfs p) as [E | [(Hin & _) | (Hin & _)]]; [done | |].
    + apply Hdirs in Hin as [? | [? | ?]]; done.
    + by apply Hfiles in Hin.
  - intros p Hp.
    destruct (Hfs p) as [E | [(_ & Hn & _) | (_ & Hn & _)]]; congruence.
  - intros p c Hp.
    destruct (Hfs p) as [E | [(_ & Hn & _) | (_ & _ & c' & Hc)]];
      [exists c | | exists c']; congruence.
  - intros p c Hp Hout.
    destruct (Hfs p) as [E | [(_ & Hn & _) | (Hin & _)]]; congruence || done.
Qed.

Lemma create_project_structure_frame_witness :
  ∃ e s', setup.create_project_structure projects_is_a_file = (Raised e, s') ∧
          requests s' = [] ∧
          fs s' !! (Anchor "D:\" / "Projects")%path = Some (File (Text "notes")).
Proof.
  destruct projects_is_a_file_run as (s' & Hrun & _).
  destruct (create_project_structure_frame projects_is_a_file s' _ Hrun)
    as (Hreq & _ & _ & _ & Hkeep).
  exists FileExistsError, s'. split; [exact Hrun |]. split; [exact Hreq |].
  apply Hkeep; [reflexivity | by_evaluation].
Defined.

(** ** setup.py: when a run returns and what it leaves *)

Lemma wf_fs_edited_project : wf_fs (fs edited_project).
Proof.
  apply wf_fs_insert; [apply wf_fs_insert; [apply wf_fs_empty_project | |] | |];
    reflexivity.
Qed.

Lemma edited_project_run :
  ∃ s', setup.create_project_structure edited_project = (Returned tt, s').
Proof.
  destruct (create_project_structure_from_root edited_project (fs edited_project))
    as [out Hrun].
  - intros out. by rewrite Path_mkdir_exists.
  - reflexivity.
  - unfold layout_free, PROJECT_LAYOUT. cbv zeta.
    repeat (apply Forall_cons; split;
            [unfold accepts; cbn [fst snd];
             first [left; reflexivity | right; reflexivity
                   | intros H; vm_compute in H; discriminate H] |]).
    apply Forall_nil_2.
  - eauto.
Qed.

(** X1: whenever [create_project_structure] returns, whatever was on the
    file system before, the project root is a directory, each of the eight
    directories of the layout is there and each of the eight files holds
    its template: a file of the layout that was edited is overwritten.  The
    working directory is then the project root. *)
Theorem create_project_structure_overwrites (s s' : State) :
  setup.create_project_structure s = (Returned tt, s') →
  (∀ p n, (p, n) ∈ PROJECT_LAYOUT → fs s' !! p = Some n) ∧
  fs s' !! setup.PROJECT_ROOT = Some Dir ∧
  cwd s' = setup.PROJECT_ROOT.
Proof.
  intros Hrun.
  apply create_project_structure_returned in Hrun as (m & Hroot & Hfs & Hcwd).
  rewrite Hfs. split; [| split; [| done]].
  - intros p n Hin. by apply lookup_insert_all_in; [apply layout_paths_NoDup |].
  - by rewrite lookup_insert_all_notin by apply root_not_in_layout.
Qed.

Lemma create_project_structure_overwrites_witness :
  fs edited_project !! (setup.PROJECT_ROOT / "src" / "main.cpp")%path
    = Some (File (Text "int main() { return 0; }")) ∧
  ∃ s', setup.create_project_structure edited_project = (Returned tt, s') ∧
        fs s' !! (setup.PROJECT_ROOT / "src" / "main.cpp")%path
          = Some (File (Text setup.MAIN_CPP_TEMPLATE)).
Proof.
  split; [reflexivity |].
  destruct edited_project_run as [s' Hrun]. exists s'. split; [exact Hrun |].
  destruct (create_project_structure_overwrites edited_project s' Hrun)
    as (Hlayout & _ & _).
  apply Hlayout. unfold PROJECT_LAYOUT. cbv zeta.
  do 10 apply list_elem_of_further. apply list_elem_of_here.
Defined.

(** [mkdir(exist_ok=True)] returns only on a path that was free or a
    directory, and [open] for writing only on a path that was no directory. *)
Lemma Path_mkdir_false_returned_pre (p : Path) (s s' : State) (u : unit) :
  Path_mkdir p false true s = (Returned u, s') →
  (fs s !! p = None ∨ fs s !! p = Some Dir) ∧
  s' = with_fs (<[p := Dir]> (fs s)) s.
Proof.
  intros H. split; [| by eapply Path_mkdir_false_returned].
  rewrite Path_mkdir_here in H. unfold mkdir_here, try_except in H.
  destruct (os_mkdir p s) as [[[] | e] s1] eqn:E.
  - apply os_mkdir_returned in E as [Hn _]. by left.
  - apply os_mkdir_raised in E as ->. right.
    destruct e; unfold raise, ret, mbind, Py_bind, bind, Path_is_dir in H;
      [done | | |]; by destruct (fs s !! p) as [[] |].
Qed.

Lemma open_w_returned_pre (p : Path) (c : Content) (s s' : State) (u : unit) :
  open_w p c s = (Returned u, s') →
  fs s !! p ≠ Some Dir ∧ s' = with_fs (<[p := File c]> (fs s)) s.
Proof.
  intros H. split; [| by eapply open_w_returned].
  unfold open_w in H. by destruct (fs s !! p) as [[] |].
Qed.

(** In a well-formed file system a directory lies in directories. *)
Lemma can_make_dirs_existing (p : Path) (m : gmap Path Node) :
  wf_fs m → m !! p = Some Dir → can_make_dirs p m.
Proof.
  intros Hwf. induction p as [d | q IH n]; simpl; intros Hp; [done |].
  split; [by right |]. apply IH. apply (Hwf q n). eauto.
Qed.

(** [mkdir(parents=True, exist_ok=True)] returns only where the drive is
    there and no regular file is in the way. *)
Lemma Path_mkdir_parents_returned_pre (p : Path) (s s' : State) (u : unit) :
  wf_fs (fs s) → Path_mkdir p true true s = (Returned u, s') →
  can_make_dirs p (fs s).
Proof.
  intros Hwf. revert s' u.
  assert (Hexists : ∀ q e s' u,
    (is_dir ← Path_is_dir q; if negb true || negb is_dir then raise e else ret tt) s
    = (Returned u, s') → can_make_dirs q (fs s)).
  { intros q e s' u. unfold raise, ret, mbind, Py_bind, bind, Path_is_dir.
    destruct (fs s !! q) as [[] |] eqn:Hq; simpl; try done.
    intros _. by apply can_make_dirs_existing. }
  induction p as [d | q IH n]; intros s' u; simpl; unfold try_except.
  - unfold os_mkdir. destruct (fs s !! Anchor d) as [nd |] eqn:Hd; simpl;
      [| done].
    intros H. apply (Hexists (Anchor d) FileExistsError s' u) in H.
    simpl in H. by rewrite Hd in H.
  - destruct (os_mkdir (q / n) s) as [[[] | e] s1] eqn:E.
    + intros _. unfold os_mkdir in E.
      destruct (fs s !! (q / n)%path) eqn:Hp; [done |].
      destruct (fs s !! q) as [[] |] eqn:Hq; try done.
      split; [by left | by apply can_make_dirs_existing].
    + pose proof E as E'. apply os_mkdir_raised in E' as ->. destruct e.
      * intros H. apply bind_returned_inv in H as ([] & s2 & H & _).
        apply IH in H. split; [| done]. left.
        unfold os_mkdir in E. by destruct (fs s !! (q / n)%path).
      * apply Hexists.
      * apply Hexists.
      * apply Hexists.
Qed.

Lemma layout_below_root :
  Forall (λ e, Path_depth setup.PROJECT_ROOT < Path_depth e.1) PROJECT_LAYOUT.
Proof.
  unfold PROJECT_LAYOUT. cbv zeta.
  repeat (apply Forall_cons; split; [simpl; lia |]). apply Forall_nil_2.
Qed.

(** Making the project root does not change whether the layout can be
    used. *)
Lemma layout_free_ensure_dirs (m : gmap Path Node) :
  layout_free (ensure_dirs setup.PROJECT_ROOT m) ↔ layout_free m.
Proof.
  unfold layout_free. rewrite !Forall_forall.
  pose proof (proj1 (Forall_forall _ _) layout_below_root) as Hdeep.
  split; intros H e He; specialize (H e He); specialize (Hdeep e He);
    unfold accepts in *;
    by rewrite lookup_ensure_dirs_deeper in * by done.
Qed.

(** One statement of a returned run, read backwards, with what the
    statement needed of the path it used; the need is stated of the file
    system [m] the later steps build on. *)
Ltac unstep_pre H lem :=
  let Ha := fresh "Ha" in
  let sa := fresh "sa" in
  let Hpre := fresh "Hpre" in
  apply bind_returned_inv in H as ([] & sa & Ha & H);
  cbv beta in H; apply lem in Ha as [Hpre Ha]; subst sa;
  norm_state_in H; norm_state_in Hpre;
  repeat (rewrite lookup_insert_ne in Hpre by path_ne);
  rewrite ?lookup_ensure_dirs_deeper in Hpre by (simpl; lia).

Lemma create_project_structure_returned_pre (s s1 : State) :
  wf_fs (fs s) → setup.create_project_structure s = (Returned tt, s1) →
  can_make_dirs setup.PROJECT_ROOT (fs s) ∧ layout_free (fs s).
Proof.
  intros Hwf H.
  unfold setup.create_project_structure, setup.DIRECTORIES, setup.json_dump,
    setup.write in H.
  cbn [for_each] in H. cbv beta zeta in H.
  unstep H print_returned.
  apply bind_returned_inv in H as ([] & sb & Hroot & H). cbv beta in H.
  pose proof Hroot as Hcan.
  apply Path_mkdir_parents_returned_pre in Hcan; [| done].
  norm_state_in Hcan. split; [done |].
  rewrite Path_mkdir_parents_run in Hroot by done.
  injection Hroot as <-. norm_state_in H.
  unstep H os_chdir_returned. unstep H print_returned.
  do 7 (rewrite !bind_assoc in H; cbv beta in H;
        unstep_pre H Path_mkdir_false_returned_pre; unstep H print_returned).
  rewrite bind_ret in H.
  unstep_pre H Path_mkdir_false_returned_pre.
  unstep_pre H open_w_returned_pre. unstep H print_returned.
  unstep H print_returned. unstep_pre H open_w_returned_pre. unstep H print_returned.
  unstep H print_returned. unstep_pre H open_w_returned_pre. unstep H print_returned.
  unstep H print_returned. unstep_pre H open_w_returned_pre. unstep H print_returned.
  unstep H print_returned. unstep_pre H open_w_returned_pre. unstep H print_returned.
  unstep H print_returned. unstep_pre H open_w_returned_pre.
  unstep_pre H open_w_returned_pre.
  unstep H print_returned. unstep H print_returned.
  unstep H print_returned. unstep_pre H open_w_returned_pre.
  clear H.
  unfold layout_free, PROJECT_LAYOUT. cbv zeta.
  repeat (apply Forall_cons; split; [unfold accepts; cbn [fst snd]; assumption |]).
  apply Forall_nil_2.
Qed.

(** X4: on a well-formed file system [create_project_structure] returns
    exactly when the drive is there, neither [D:\Projects] nor the project
    root is a regular file, none of the eight directories of the layout is
    a regular file and none of its eight file paths is a directory; in
    every other case it raises. *)
Theorem create_project_structure_returns_iff (s : State) :
  wf_fs (fs s) →
  (∃ s', setup.create_project_structure s = (Returned tt, s')) ↔
  (fs s !! Anchor "D:\" = Some Dir ∧
   (fs s !! (Anchor "D:\" / "Projects")%path = None ∨
    fs s !! (Anchor "D:\" / "Projects")%path = Some Dir) ∧
   (fs s !! setup.PROJECT_ROOT = None ∨ fs s !! setup.PROJECT_ROOT = Some Dir) ∧
   layout_free (fs s)).
Proof.
  intros Hwf.
  assert (Hcan : can_make_dirs setup.PROJECT_ROOT (fs s) ↔
    fs s !! Anchor "D:\" = Some Dir ∧
    (fs s !! (Anchor "D:\" / "Projects")%path = None ∨
     fs s !! (Anchor "D:\" / "Projects")%path = Some Dir) ∧
    (fs s !! setup.PROJECT_ROOT = None ∨ fs s !! setup.PROJECT_ROOT = Some Dir))
    by (unfold setup.PROJECT_ROOT; simpl; tauto).
  split.
  - intros [s' Hrun].
    apply create_project_structure_returned_pre in Hrun as [Hc Hl]; [| done].
    apply Hcan in Hc. tauto.
  - intros (Hd & Hp & Hr & Hl).
    assert (Hc : can_make_dirs setup.PROJECT_ROOT (fs s)) by (apply Hcan; tauto).
    destruct (create_project_structure_from_root s
                (ensure_dirs setup.PROJECT_ROOT (fs s))) as [out Hrun].
    + intros out. by rewrite Path_mkdir_parents_run.
    + apply lookup_ensure_dirs_self.
    + by apply layout_free_ensure_dirs.
    + eauto.
Qed.

Lemma create_project_structure_returns_iff_witness :
  (∃ s', setup.create_project_structure projects_is_a_file = (Returned tt, s')) ↔
  (fs projects_is_a_file !! Anchor "D:\" = Some Dir ∧
   (fs projects_is_a_file !! (Anchor "D:\" / "Projects")%path = None ∨
    fs projects_is_a_file !! (Anchor "D:\" / "Projects")%path = Some Dir) ∧
   (fs projects_is_a_file !! setup.PROJECT_ROOT = None ∨
    fs projects_is_a_file !! setup.PROJECT_ROOT = Some Dir) ∧
   layout_free (fs projects_is_a_file)).
Proof.
  apply (create_project_structure_returns_iff projects_is_a_file).
  apply wf_fs_insert; [apply wf_fs_drive | reflexivity | reflexivity].
Defined.

(** ** setup.py: how a run fails *)

Lemma wf_fs_no_drive (m : gmap Path Node) (p : Path) :
  wf_fs m → m !! Path_anchor p = None → m !! p = None.
Proof.
  intros Hwf. induction p as [d | q IH n]; simpl; intros Ha; [done |].
  apply wf_fs_absent; [done |]. by apply IH.
Qed.

(** [Path.mkdir] on a drive that is not there raises [FileNotFoundError],
    with [parents=True] too. *)
Lemma Path_mkdir_no_drive (p : Path) (parents exist_ok : bool) (s : State) :
  wf_fs (fs s) → fs s !! Path_anchor p = None →
  Path_mkdir p parents exist_ok s = (Raised FileNotFoundError, s).
Proof.
  intros Hwf. revert parents exist_ok.
  induction p as [d | q IH n]; intros parents exist_ok Ha; simpl in *;
    unfold try_except, os_mkdir.
  - by rewrite Ha.
  - rewrite (wf_fs_no_drive _ (q / n)) by done.
    rewrite (wf_fs_no_drive _ q) by done. simpl.
    destruct parents; simpl; [| done].
    by rewrite (bind_raised _ _ _ _ _ (IH true true Ha)).
Qed.

(** X5: where the project root is a regular file, [create_project_structure]
    raises [FileExistsError] ([exist_ok=True] lets a directory pass, not a
    file) and has changed neither the file system nor the working
    directory. *)
Theorem create_project_structure_root_is_a_file (s : State) (c : Content) :
  fs s !! setup.PROJECT_ROOT = Some (File c) →
  ∃ s', setup.create_project_structure s = (Raised FileExistsError, s') ∧
        fs s' = fs s ∧ cwd s' = cwd s.
Proof.
  intros Hroot. eexists. split.
  - unfold setup.create_project_structure.
    erewrite (bind_returned (print _)) by reflexivity. cbv beta.
    erewrite bind_raised; [reflexivity |].
    by apply (Path_mkdir_on_file _ _ _ c).
  - done.
Qed.

Lemma create_project_structure_root_is_a_file_witness :
  ∃ s', setup.create_project_structure
          (with_fs (<[setup.PROJECT_ROOT := File (Text "notes")]> (fs empty_project))
                   empty_project)
        = (Raised FileExistsError, s') ∧
        fs s' !! setup.PROJECT_ROOT = Some (File (Text "notes")).
Proof.
  destruct (create_project_structure_root_is_a_file
              (with_fs (<[setup.PROJECT_ROOT := File (Text "notes")]> (fs empty_project))
                       empty_project) (Text "notes"))
    as (s' & Hrun & Hfs & _); [reflexivity |].
  exists s'. split; [exact Hrun |]. rewrite Hfs. reflexivity.
Defined.

(** X6: on a machine without the drive [D:\] (a well-formed file system
    where it is absent) [create_project_structure] raises
    [FileNotFoundError]: [parents=True] makes missing directories, not a
    missing drive.  Nothing is changed. *)
Theorem create_project_structure_no_drive (s : State) :
  wf_fs (fs s) → fs s !! Anchor "D:\" = None →
  ∃ s', setup.create_project_structure s = (Raised FileNotFoundError, s') ∧
        fs s' = fs s ∧ cwd s' = cwd s.
Proof.
  intros Hwf Hdrive. eexists. split.
  - unfold setup.create_project_structure.
    erewrite (bind_returned (print _)) by reflexivity. cbv beta.
    erewrite bind_raised; [reflexivity |].
    by apply Path_mkdir_no_drive.
  - done.
Qed.

Lemma create_project_structure_no_drive_witness :
  ∃ s', setup.create_project_structure no_d_drive = (Raised FileNotFoundError, s') ∧
        fs s' = fs no_d_drive.
Proof.
  destruct (create_project_structure_no_drive no_d_drive)
    as (s' & Hrun & Hfs & _); [apply wf_fs_drive | reflexivity |].
  exists s'. split; [exact Hrun | exact Hfs].
Defined.

(** X7: a run that fails is not undone.  Where the project root is a
    directory, [src] is free and [include] is a regular file, the script
    raises [FileExistsError] at [include]; [src], made before, stays, and
    the working directory is the project root. *)
Theorem create_project_structure_not_atomic (s : State) (c : Content) :
  fs s !! setup.PROJECT_ROOT = Some Dir →
  fs s !! (setup.PROJECT_ROOT / "src")%path = None →
  fs s !! (setup.PROJECT_ROOT / "include")%path = Some (File c) →
  ∃ s', setup.create_project_structure s = (Raised FileExistsError, s') ∧
        fs s' = <[(setup.PROJECT_ROOT / "src")%path := Dir]> (fs s) ∧
        cwd s' = setup.PROJECT_ROOT.
Proof.
  intros Hroot Hsrc Hinclude. eexists. split.
  - unfold setup.create_project_structure, setup.DIRECTORIES.
    cbn [for_each]. cbv beta zeta.
    step_print.
    step Path_mkdir_exists ltac:(done).
    step os_chdir_run ltac:(done).
    step_print.
    rewrite !bind_assoc. cbv beta.
    step Path_mkdir_run ltac:(first [done | by left]).
    step_print.
    rewrite !bind_assoc. cbv beta.
    erewrite bind_raised; [reflexivity |].
    apply (Path_mkdir_on_file _ _ _ c). norm_state.
    by rewrite lookup_insert_ne by path_ne.
  - done.
Qed.

Lemma create_project_structure_not_atomic_witness :
  fs include_is_a_file !! (setup.PROJECT_ROOT / "src")%path = None ∧
  ∃ s', setup.create_project_structure include_is_a_file
          = (Raised FileExistsError, s') ∧
        fs s' !! (setup.PROJECT_ROOT / "src")%path = Some Dir.
Proof.
  split; [reflexivity |].
  destruct (create_project_structure_not_atomic include_is_a_file (Text "notes"))
    as (s' & Hrun & Hfs & _); [reflexivity | reflexivity | reflexivity |].
  exists s'. split; [exact Hrun |]. rewrite Hfs. reflexivity.
Defined.

(** ** setup.py: what a run prints *)

(** [Path.mkdir] changes the file system and nothing else of the state. *)
Lemma Path_mkdir_only_fs (p : Path) (parents exist_ok : bool)
    (s s' : State) (r : Outcome unit) :
  Path_mkdir p parents exist_ok s = (r, s') → s' = with_fs (fs s') s.
Proof.
  revert parents exist_ok s s' r.
  assert (Hhere : ∀ q eo s s' r, mkdir_here q eo s = (r, s') → s' = with_fs (fs s') s).
  { intros q eo s s' r H.
    apply mkdir_here_effect in H as [-> | [_ ->]]; [by rewrite with_fs_id | done]. }
  induction p as [d | q IH n]; intros parents exist_ok s s' r.
  - rewrite <- (with_fs_id s) at 2. simpl. unfold try_except, os_mkdir.
    destruct (fs s !! Anchor d) as [nd |]; [| intros [= <- <-]; by rewrite !with_fs_id].
    intros H. apply exists_handler_effect in H as ->. by rewrite !with_fs_id.
  - simpl. unfold try_except.
    destruct (os_mkdir (q / n) s) as [[[] | e] s1] eqn:E.
    + apply os_mkdir_returned in E as [_ ->]. by intros [= <- <-].
    + apply os_mkdir_raised in E as ->. destruct e.
      * destruct parents; simpl; [| intros [= <- <-]; by rewrite with_fs_id].
        unfold mbind, Py_bind, bind.
        destruct (Path_mkdir q true true s) as [[[] | e] s2] eqn:E2.
        -- intros H. apply Hhere in H. apply IH in E2.
           rewrite H, E2. done.
        -- intros [= <- <-]. by apply IH in E2.
      * intros H. apply exists_handler_effect in H as ->. by rewrite with_fs_id.
      * intros H. apply exists_handler_effect in H as ->. by rewrite with_fs_id.
      * intros H. apply exists_handler_effect in H as ->. by rewrite with_fs_id.
Qed.

(** X8: what a returned run of [create_project_structure] prints does not
    depend on the file system it ran on: the same 31 lines, whether the
    directories and files were made or found. *)
Theorem create_project_structure_output :
  ∃ out, length out = 31 ∧
    ∀ s s', setup.create_project_structure s = (Returned tt, s') →
            stdout s' = stdout s ++ out.
Proof.
  eexists. split; cycle 1.
  - intros s s' H.
    unfold setup.create_project_structure, setup.DIRECTORIES, setup.json_dump,
      setup.write in H.
    cbn [for_each] in H. cbv beta zeta in H.
    unstep H print_returned.
    apply bind_returned_inv in H as ([] & sb & Hroot & H). cbv beta in H.
    apply Path_mkdir_only_fs in Hroot. norm_state_in Hroot.
    destruct sb as [mb cb ob rb]. cbn [fs] in Hroot.
    injection Hroot as -> -> ->.
    unstep H os_chdir_returned. unstep H print_returned.
    do 7 (rewrite !bind_assoc in H; cbv beta in H;
          unstep H Path_mkdir_false_returned; unstep H print_returned).
    rewrite bind_ret in H.
    unstep H Path_mkdir_false_returned.
    unstep H open_w_returned. unstep H print_returned.
    unstep H print_returned. unstep H open_w_returned. unstep H print_returned.
    unstep H print_returned. unstep H open_w_returned. unstep H print_returned.
    unstep H print_returned. unstep H open_w_returned. unstep H print_returned.
    unstep H print_returned. unstep H open_w_returned. unstep H print_returned.
    unstep H print_returned. unstep H open_w_returned. unstep H open_w_returned.
    unstep H print_returned. unstep H print_returned.
    unstep H print_returned. unstep H open_w_returned. unstep H print_returned.
    do 6 unstep H print_returned.
    apply print_returned in H. norm_state_in H. subst s'. cbn [stdout].
    rewrite <- !app_assoc. cbn [app]. reflexivity.
  - reflexivity.
Qed.

(** ** download_glad.py: when a run returns, and how the scripts compose *)

Lemma wf_fs_below_no_dir (m : gmap Path Node) (p : Path) (name : string) :
  wf_fs m → m !! p ≠ Some Dir → m !! (p / name)%path = None.
Proof.
  intros Hwf Hp. destruct (m !! (p / name)%path) as [n |] eqn:E; [| done].
  destruct Hp. apply (Hwf p name). eauto.
Qed.

(** [mkdir] without [parents] below something that is no directory. *)
Lemma Path_mkdir_no_parent (p : Path) (name : string) (exist_ok : bool) (s : State) :
  fs s !! p ≠ Some Dir → fs s !! (p / name)%path = None →
  Path_mkdir (p / name) false exist_ok s = (Raised FileNotFoundError, s).
Proof.
  intros Hp Hn. simpl. unfold try_except, os_mkdir. rewrite Hn.
  by destruct (fs s !! p) as [[] |].
Qed.

(** X9: [download_glad] does not make the project root.  On a well-formed
    file system where the project root is no directory it raises
    [FileNotFoundError] at its first [mkdir], having printed its first line
    and changed nothing. *)
Theorem download_glad_needs_project_root (s : State) :
  wf_fs (fs s) → fs s !! download_glad.PROJECT_ROOT ≠ Some Dir →
  ∃ s', download_glad.download_glad s = (Raised FileNotFoundError, s') ∧
        fs s' = fs s ∧ length (stdout s') = S (length (stdout s)).
Proof.
  intros Hwf Hroot. eexists. split.
  - unfold download_glad.download_glad. cbv zeta.
    erewrite (bind_returned (print _)) by reflexivity. cbv beta.
    erewrite bind_raised; [reflexivity |].
    apply Path_mkdir_no_parent; [done |]. by apply wf_fs_below_no_dir.
  - split; [done |]. cbn [stdout with_stdout]. rewrite length_app. simpl. lia.
Qed.

Lemma download_glad_needs_project_root_witness :
  ∃ s', download_glad.download_glad fresh_drive = (Raised FileNotFoundError, s') ∧
        fs s' = fs fresh_drive.
Proof.
  destruct (download_glad_needs_project_root fresh_drive)
    as (s' & Hrun & Hfs & _); [apply wf_fs_drive | done |].
  exists s'. split; [exact Hrun | exact Hfs].
Defined.

(** A returned run of [download_glad] has stored its six directories. *)
Lemma download_glad_returned (s s1 : State) :
  download_glad.download_glad s = (Returned tt, s1) →
  Forall (λ p, fs s1 !! p = Some Dir) GLAD_DIRS.
Proof.
  intros H. unfold download_glad.download_glad in H. cbv zeta in H.
  unstep H print_returned.
  do 6 unstep H Path_mkdir_false_returned.
  do 14 unstep H print_returned.
  apply print_returned in H. norm_state_in H. subst s1. cbn [fs].
  unfold GLAD_DIRS. cbv zeta.
  repeat (apply Forall_cons; split; [peel_inserts; done |]).
  apply Forall_nil_2.
Qed.

(** Where the six directories are there, [download_glad] returns and leaves
    the file system as it is. *)
Lemma download_glad_rerun (s : State) :
  Forall (λ p, fs s !! p = Some Dir) GLAD_DIRS →
  ∃ s', download_glad.download_glad s = (Returned tt, s') ∧ fs s' = fs s.
Proof.
  intros Hdirs. unfold GLAD_DIRS in Hdirs. cbv zeta in Hdirs.
  repeat (apply Forall_cons in Hdirs as [? Hdirs]). clear Hdirs.
  eexists. split.
  - unfold download_glad.download_glad. cbv zeta.
    step_print.
    do 6 step Path_mkdir_exists ltac:(assumption).
    do 14 step_print.
    reflexivity.
  - reflexivity.
Qed.

(** X10: [download_glad] is idempotent on the file system: after a run that
    returned, a second run returns too and changes nothing. *)
Theorem download_glad_idempotent (s s1 : State) :
  download_glad.download_glad s = (Returned tt, s1) →
  ∃ s2, download_glad.download_glad s1 = (Returned tt, s2) ∧ fs s2 = fs s1.
Proof.
  intros Hrun. apply download_glad_rerun. by apply (download_glad_returned s).
Qed.

Lemma download_glad_idempotent_witness :
  ∃ s1 s2, download_glad.download_glad empty_project = (Returned tt, s1) ∧
           download_glad.download_glad s1 = (Returned tt, s2) ∧ fs s2 = fs s1.
Proof.
  destruct empty_project_glad_run as [s1 Hrun]. exists s1.
  destruct (download_glad_idempotent empty_project s1 Hrun) as (s2 & Hrun2 & Hfs).
  exists s2. split; [exact Hrun |]. split; [exact Hrun2 | exact Hfs].
Defined.

(** [mkdir] without [parents] returns, on a well-formed file system, only
    below a directory. *)
Lemma Path_mkdir_false_returned_parent (p : Path) (name : string)
    (s s' : State) (u : unit) :
  wf_fs (fs s) → Path_mkdir (p / name) false true s = (Returned u, s') →
  fs s !! p = Some Dir.
Proof.
  intros Hwf H. rewrite Path_mkdir_here in H. unfold mkdir_here, try_except in H.
  destruct (os_mkdir (p / name) s) as [[[] | e] s1] eqn:E.
  - unfold os_mkdir in E. destruct (fs s !! (p / name)%path); [done |].
    by destruct (fs s !! p) as [[] |].
  - apply os_mkdir_raised in E as ->.
    destruct e; unfold raise, ret, mbind, Py_bind, bind, Path_is_dir in H;
      [done | | |];
      (destruct (fs s !! (p / name)%path) as [[] |] eqn:Hp; [| done | done]);
      apply (Hwf p name); eauto.
Qed.

(** X11: on a well-formed file system [download_glad] returns exactly when
    the project root is a directory and none of its six paths is a regular
    file; in every other case it raises. *)
Theorem download_glad_returns_iff (s : State) :
  wf_fs (fs s) →
  (∃ s', download_glad.download_glad s = (Returned tt, s')) ↔
  (fs s !! download_glad.PROJECT_ROOT = Some Dir ∧
   Forall (λ p, fs s !! p = None ∨ fs s !! p = Some Dir) GLAD_DIRS).
Proof.
  intros Hwf. split.
  - intros [s' H]. unfold download_glad.download_glad in H. cbv zeta in H.
    unstep H print_returned.
    apply bind_returned_inv in H as ([] & sa & Ha & H). cbv beta in H.
    pose proof Ha as Hroot.
    apply Path_mkdir_false_returned_parent in Hroot; [| done].
    norm_state_in Hroot. split; [done |].
    apply Path_mkdir_false_returned_pre in Ha as [Hpre Ha]. subst sa.
    norm_state_in H. norm_state_in Hpre.
    do 5 unstep_pre H Path_mkdir_false_returned_pre.
    clear H. unfold GLAD_DIRS. cbv zeta.
    repeat (apply Forall_cons; split; [assumption |]). apply Forall_nil_2.
  - intros [Hroot Hdirs].
    destruct (download_glad_run s Hroot Hdirs) as (s' & Hrun & _). eauto.
Qed.

Lemma download_glad_returns_iff_witness :
  (∃ s', download_glad.download_glad include_is_a_file = (Returned tt, s')) ↔
  (fs include_is_a_file !! download_glad.PROJECT_ROOT = Some Dir ∧
   Forall (λ p, fs include_is_a_file !! p = None ∨
                fs include_is_a_file !! p = Some Dir) GLAD_DIRS).
Proof.
  apply (download_glad_returns_iff include_is_a_file).
  apply wf_fs_insert; [apply wf_fs_empty_project | reflexivity | reflexivity].
Defined.

Lemma glad_dirs_not_of_setup :
  Forall (λ p, (p ∉ SETUP_DIRS) ∧ (p ∉ SETUP_FILES)) GLAD_DIRS.
Proof.
  unfold GLAD_DIRS. cbv zeta.
  repeat (apply Forall_cons; split; [split; by_evaluation |]).
  apply Forall_nil_2.
Qed.

Lemma layout_not_of_glad :
  Forall (λ e, e.1 ∉ GLAD_DIRS) PROJECT_LAYOUT.
Proof.
  unfold PROJECT_LAYOUT. cbv zeta.
  repeat (apply Forall_cons; split; [by_evaluation |]).
  apply Forall_nil_2.
Qed.

(** X13: the two scripts compose.  After a run of
    [create_project_structure] that returned, on a file system where none of
    the six paths of [download_glad] was a regular file, [download_glad]
    returns; then the six directories are there beside the whole layout,
    which [download_glad] has left as [create_project_structure] made it. *)
Theorem download_glad_after_setup (s s1 : State) :
  setup.create_project_structure s = (Returned tt, s1) →
  Forall (λ p, fs s !! p = None ∨ fs s !! p = Some Dir) GLAD_DIRS →
  ∃ s2, download_glad.download_glad s1 = (Returned tt, s2) ∧
        Forall (λ p, fs s2 !! p = Some Dir) GLAD_DIRS ∧
        ∀ p n, (p, n) ∈ PROJECT_LAYOUT → fs s2 !! p = Some n.
Proof.
  intros Hrun Hfree.
  destruct (create_project_structure_grows s _ s1 Hrun) as [_ Hgrow].
  apply create_project_structure_returned in Hrun as (m & Hroot & Hfs & _).
  assert (Hroot1 : fs s1 !! download_glad.PROJECT_ROOT = Some Dir).
  { rewrite Hfs. by rewrite lookup_insert_all_notin by apply root_not_in_layout. }
  assert (Hfree1 : Forall (λ p, fs s1 !! p = None ∨ fs s1 !! p = Some Dir) GLAD_DIRS).
  { apply Forall_forall. intros p Hp.
    destruct (proj1 (Forall_forall _ _) glad_dirs_not_of_setup p Hp) as [Hd Hf].
    destruct (Hgrow p) as [-> | [(Hin & _) | (Hin & _)]]; [| done | done].
    by apply (proj1 (Forall_forall _ _) Hfree). }
  destruct (download_glad_run s1 Hroot1 Hfree1) as (s2 & Hrun2 & Hdirs & _).
  exists s2. split; [done |]. split; [done |].
  intros p n Hin.
  destruct (download_glad_confined s1 _ s2 Hrun2) as (_ & _ & Hfs2).
  destruct (Hfs2 p) as [-> | (Hg & _)].
  - rewrite Hfs. by apply lookup_insert_all_in; [apply layout_paths_NoDup |].
  - by destruct (proj1 (Forall_forall _ _) layout_not_of_glad (p, n) Hin).
Qed.

Lemma download_glad_after_setup_witness :
  ∃ s1 s2, setup.create_project_structure fresh_drive = (Returned tt, s1) ∧
           download_glad.download_glad s1 = (Returned tt, s2) ∧
           Forall (λ p, fs s2 !! p = Some Dir) GLAD_DIRS.
Proof.
  destruct fresh_drive_run as [s1 Hrun]. exists s1.
  destruct (download_glad_after_setup fresh_drive s1 Hrun)
    as (s2 & Hrun2 & Hdirs & _).
  - unfold GLAD_DIRS. cbv zeta.
    repeat (apply Forall_cons; split; [left; reflexivity |]). apply Forall_nil_2.
  - exists s2. split; [exact Hrun |]. split; [exact Hrun2 | exact Hdirs].
Defined.
